(** * sphinx-ext-mystmd: the MyST builders of [sphinx_ext_mystmd/builder.py]

    A shallow embedding of the two Sphinx builders ([MySTBuilder] and
    [MySTXRefBuilder]) and of the mixin that rewrites internal links,
    followed by the properties of staleness detection, link rewriting,
    reference classification and the cross-reference manifest.

    Python values are embedded as follows.
    - [str] is [string]; a character stands for one byte of the UTF-8
      encoding, which is exact for every operation used here (searching for
      ASCII delimiters, slicing at their positions, concatenation).
    - the JSON-like values handled by the builders ([dict], [list], [str],
      numbers, [bool], [None]) are the type [json];
    - a raised exception is the [Raise] case of [result];
    - [self.env.found_docs] (a [set]) and [self.env.all_docs] (a [dict] of
      which only the keys are read) are [gset string]; iterating the set is
      [elements]. *)

From Stdlib Require Import ZArith QArith String Ascii List.
From Stdlib.Strings Require Import Byte.
From stdpp Require Import base option list strings gmap.

Set Warnings "-register-all".
Open Scope string_scope.

(** ** Python: exceptions, values, and the operations on them *)

Module Py.

Inductive exn : Type :=
| KeyError (key : string)
| TypeError
| AttributeError
| ValueError
| OSError.

Inductive result (A : Type) : Type :=
| Ok (a : A)
| Raise (e : exn).
Arguments Ok {A} a.
Arguments Raise {A} e.

#[global] Instance result_ret : MRet result := fun A a => Ok a.
#[global] Instance result_bind : MBind result := fun A B f m =>
  match m with
  | Ok a => f a
  | Raise e => Raise e
  end.

(** Run [f] on every element from left to right; the first exception
    ends the loop. *)
Fixpoint for_each {A B : Type} (f : A -> result B) (l : list A) : result (list B) :=
  match l with
  | [] => Ok []
  | x :: l' => y ← f x; ys ← for_each f l'; mret (y :: ys)
  end.

Inductive json : Type :=
| JNull
| JBool (b : bool)
| JInt (z : Z)
| JFloat (q : Q)
| JStr (s : string)
| JArr (items : list json)
| JObj (members : list (string * json)).

(** A [dict] is the list of its items in insertion order. Keys are
    pairwise distinct in Python; every operation below reads and writes
    the first binding of a key. *)
Fixpoint dict_lookup (k : string) (members : list (string * json)) : option json :=
  match members with
  | [] => None
  | (k', v) :: rest => if String.eqb k' k then Some v else dict_lookup k rest
  end.

(** [d[k] = v] on a dict: an existing key keeps its position. *)
Fixpoint dict_store (k : string) (v : json) (members : list (string * json))
  : list (string * json) :=
  match members with
  | [] => [(k, v)]
  | (k', v') :: rest =>
      if String.eqb k' k then (k, v) :: rest else (k', v') :: dict_store k v rest
  end.

(** [sub in s] on two strings. *)
Fixpoint str_contains (sub s : string) : bool :=
  String.prefix sub s ||
  match s with
  | EmptyString => false
  | String _ s' => str_contains sub s'
  end.

(** [v == s] where [s] is a [str]. *)
Definition eq_str (v : json) (s : string) : bool :=
  match v with
  | JStr s' => String.eqb s' s
  | _ => false
  end.

(** [k in v] for a [str] key [k]. *)
Definition contains (k : string) (v : json) : result bool :=
  match v with
  | JObj members => Ok (bool_decide (is_Some (dict_lookup k members)))
  | JStr s => Ok (str_contains k s)
  | JArr items => Ok (existsb (fun x => eq_str x k) items)
  | JNull | JBool _ | JInt _ | JFloat _ => Raise TypeError
  end.

(** [v[k]] for a [str] key [k]. *)
Definition getitem (v : json) (k : string) : result json :=
  match v with
  | JObj members =>
      match dict_lookup k members with
      | Some x => Ok x
      | None => Raise (KeyError k)
      end
  | _ => Raise TypeError
  end.

(** [v.get(k, default)]. *)
Definition get (v : json) (k : string) (default : json) : result json :=
  match v with
  | JObj members =>
      match dict_lookup k members with
      | Some x => Ok x
      | None => Ok default
      end
  | _ => Raise AttributeError
  end.

(** [v[k] = x] for a [str] key [k]. *)
Definition setitem (v : json) (k : string) (x : json) : result json :=
  match v with
  | JObj members => Ok (JObj (dict_store k x members))
  | _ => Raise TypeError
  end.

(** Truth value of a Python value. *)
Definition truthy (v : json) : bool :=
  match v with
  | JNull => false
  | JBool b => b
  | JInt z => negb (Z.eqb z 0)
  | JFloat q => negb (Qeq_bool q 0)
  | JStr s => negb (String.eqb s "")
  | JArr items => match items with [] => false | _ => true end
  | JObj members => match members with [] => false | _ => true end
  end.

End Py.
Export Py.

(** ** Python [str] methods used by [urllib.parse] and [os.path] *)

Module Str.

(** [s.find(c)] for a one-character [c]; [None] stands for [-1]. *)
Fixpoint find (c : ascii) (s : string) : option nat :=
  match s with
  | EmptyString => None
  | String a s' => if Ascii.eqb a c then Some 0 else S <$> find c s'
  end.

(** [s.rfind(c)]. *)
Fixpoint rfind (c : ascii) (s : string) : option nat :=
  match s with
  | EmptyString => None
  | String a s' =>
      match rfind c s' with
      | Some i => Some (S i)
      | None => if Ascii.eqb a c then Some 0 else None
      end
  end.

(** [s[:i]] and [s[i:]]. *)
Fixpoint take (i : nat) (s : string) : string :=
  match i, s with
  | S i', String a s' => String a (take i' s')
  | _, _ => EmptyString
  end.

Fixpoint drop (i : nat) (s : string) : string :=
  match i, s with
  | S i', String _ s' => drop i' s'
  | _, _ => s
  end.

(** [s.find(c, start)]. *)
Definition find_from (c : ascii) (s : string) (start : nat) : option nat :=
  if Nat.leb start (String.length s)
  then Nat.add start <$> find c (drop start s)
  else None.

(** [c in s] for a one-character [c]. *)
Definition has (c : ascii) (s : string) : bool :=
  bool_decide (is_Some (find c s)).

(** [s.split(c, 1)] when [c in s]: the text before the first [c] and
    the text after it. *)
Definition split_once (c : ascii) (s : string) : option (string * string) :=
  i ← find c s; Some (take i s, drop (S i) s).

(** [s.lstrip(chars)] for the set of characters satisfying [p]. *)
Fixpoint lstrip (p : ascii -> bool) (s : string) : string :=
  match s with
  | EmptyString => EmptyString
  | String a s' => if p a then lstrip p s' else s
  end.

(** Remove every character satisfying [p] (chained [s.replace(b, "")]
    for one-character [b]). *)
Fixpoint remove (p : ascii -> bool) (s : string) : string :=
  match s with
  | EmptyString => EmptyString
  | String a s' => if p a then remove p s' else String a (remove p s')
  end.

Fixpoint all (p : ascii -> bool) (s : string) : bool :=
  match s with
  | EmptyString => true
  | String a s' => p a && all p s'
  end.

Fixpoint map (f : ascii -> ascii) (s : string) : string :=
  match s with
  | EmptyString => EmptyString
  | String a s' => String (f a) (map f s')
  end.

Definition code (a : ascii) : nat := nat_of_ascii a.

Definition is_upper (a : ascii) : bool := Nat.leb 65 (code a) && Nat.leb (code a) 90.
Definition is_lower (a : ascii) : bool := Nat.leb 97 (code a) && Nat.leb (code a) 122.
Definition is_digit (a : ascii) : bool := Nat.leb 48 (code a) && Nat.leb (code a) 57.

(** [a.isascii() and a.isalpha()]. *)
Definition is_ascii_alpha (a : ascii) : bool := is_upper a || is_lower a.

Definition is_ascii (a : ascii) : bool := Nat.ltb (code a) 128.

(** [str.lower] on one ASCII character; other bytes are kept. *)
Definition lower_char (a : ascii) : ascii :=
  if is_upper a then ascii_of_nat (code a + 32) else a.

End Str.

(** ** Functions the builders call and whose code lies elsewhere *)

(** [title_to_name] and [to_text] belong to [sphinx_ext_mystmd.utils],
    whose source is not at hand; they are parameters. The other fields
    are functions of the Python library whose result the builders store
    or pass on without looking into it. *)
Class Externals : Type := {
  (** Modelled from the spec: [utils.title_to_name], the naming utility, a
      pure function from a name to a URL-safe stem. *)
  title_to_name : string -> string;
  (** Modelled from the spec: [utils.to_text], the flattened text content
      of a node. *)
  to_text : json -> string;
  (** [os.fspath(pathlib.Path(a) / b)] *)
  path_div : string -> string -> string;
  (** [hashlib.sha256(contents).hexdigest()] *)
  sha256_hexdigest : list byte -> string;
  (** the text written by [json.dump(doc, f, indent=2)], as bytes *)
  json_dumps : json -> list byte;
  (** [format(v, "")] for a value that is not a [str] *)
  format_value : json -> string;
  (** [urlsplit]'s validation of a network location that holds a bracketed
      host or a non-ASCII character ([_check_bracketed_netloc] and
      [_checknetloc]); [false] when they raise [ValueError] *)
  netloc_accepted : string -> bool;
}.

(** ** [urllib.parse]: [urlparse] and [urlunparse] (CPython 3.11) *)

Module Url.

Record ParseResult : Type := mkParseResult {
  scheme : string;
  netloc : string;
  path : string;
  params : string;
  query : string;
  fragment : string;
}.

(** [parsed._replace(path=new_path)] *)
Definition replace_path (new_path : string) (p : ParseResult) : ParseResult :=
  {| scheme := scheme p; netloc := netloc p; path := new_path;
     params := params p; query := query p; fragment := fragment p |}.

Definition uses_netloc : list string :=
  [""; "ftp"; "http"; "gopher"; "nntp"; "telnet";
   "imap"; "wais"; "file"; "mms"; "https"; "shttp";
   "snews"; "prospero"; "rtsp"; "rtspu"; "rsync";
   "svn"; "svn+ssh"; "sftp"; "nfs"; "git"; "git+ssh";
   "ws"; "wss"].

Definition uses_params : list string :=
  [""; "ftp"; "hdl"; "prospero"; "http"; "imap";
   "https"; "shttp"; "rtsp"; "rtspu"; "sip"; "sips";
   "mms"; "sftp"; "tel"].

Definition in_list (s : string) (l : list string) : bool :=
  existsb (String.eqb s) l.

(** [c in scheme_chars] *)
Definition scheme_char (c : ascii) : bool :=
  Str.is_lower c || Str.is_upper c || Str.is_digit c
  || Ascii.eqb c "+" || Ascii.eqb c "-" || Ascii.eqb c ".".

(** [c in _WHATWG_C0_CONTROL_OR_SPACE] *)
Definition c0_control_or_space (c : ascii) : bool := Nat.leb (Str.code c) 32.

(** [c in _UNSAFE_URL_BYTES_TO_REMOVE] *)
Definition unsafe_url_byte (c : ascii) : bool :=
  Nat.eqb (Str.code c) 9 || Nat.eqb (Str.code c) 13 || Nat.eqb (Str.code c) 10.

Definition _splitparams (url : string) : string * string :=
  if Str.has "/" url then
    match Str.find_from ";" url (default 0 (Str.rfind "/" url)) with
    | None => (url, "")
    | Some i => (Str.take i url, Str.drop (S i) url)
    end
  else
    match Str.find ";" url with
    | None => (Str.take (String.length url - 1) url, url)
    | Some i => (Str.take i url, Str.drop (S i) url)
    end.

Definition _splitnetloc (url : string) (start : nat) : string * string :=
  let delim :=
    foldl (fun delim c =>
             match Str.find_from c url start with
             | Some wdelim => Nat.min delim wdelim
             | None => delim
             end)
          (String.length url) ["/"; "?"; "#"]%char in
  (Str.drop start (Str.take delim url), Str.drop delim url).

(** The scheme of [url] and what follows it: [url[:i].lower()] and
    [url[i+1:]] when the text before the first colon, at [i > 0], starts
    with an ASCII letter and is made of scheme characters. *)
Definition split_scheme (url : string) : string * string :=
  match Str.find ":" url with
  | Some (S i') =>
      let i := S i' in
      match url with
      | String c0 _ =>
          if Str.is_ascii_alpha c0 && Str.all scheme_char (Str.take i url)
          then (Str.map Str.lower_char (Str.take i url), Str.drop (S i) url)
          else ("", url)
      | EmptyString => ("", url)
      end
  | _ => ("", url)
  end.

(** The network location, split off when [url[:2] == '//']. *)
Definition split_netloc (url : string) : string * string :=
  if String.eqb (Str.take 2 url) "//" then _splitnetloc url 2 else ("", url).

(** [url, rest = url.split(c, 1)] when [c in url]. *)
Definition split_at (c : ascii) (url : string) : string * string :=
  match Str.split_once c url with
  | Some (u, rest) => (u, rest)
  | None => (url, "")
  end.

Section WithExternals.
Context `{Externals}.

(** The [ValueError] checks [urlsplit] runs on the network location. *)
Definition netloc_ok (netloc : string) : bool :=
  let lb := Str.has "[" netloc in
  let rb := Str.has "]" netloc in
  if (lb && negb rb) || (rb && negb lb) then false
  else if lb && rb && negb (netloc_accepted netloc) then false
  else if negb (String.eqb netloc "") && negb (Str.all Str.is_ascii netloc)
            && negb (netloc_accepted netloc) then false
  else true.

(** [urlsplit(url)] on a [str], without the [scheme] and
    [allow_fragments] arguments (they keep their defaults). The result
    lists scheme, netloc, path, query and fragment. *)
Definition urlsplit (url : string)
  : result (string * string * string * string * string) :=
  let url := Str.lstrip c0_control_or_space url in
  let url := Str.remove unsafe_url_byte url in
  let '(scheme, url) := split_scheme url in
  let '(netloc, url) := split_netloc url in
  let '(url, fragment) := split_at "#" url in
  let '(url, query) := split_at "?" url in
  if netloc_ok netloc
  then Ok (scheme, netloc, url, query, fragment)
  else Raise ValueError.

(** The parameters are split off when [scheme in uses_params and ';' in
    url]. *)
Definition split_params (scheme url : string) : string * string :=
  if in_list scheme uses_params && Str.has ";" url
  then _splitparams url
  else (url, "").

(** [urlparse(url)] on a [str]. *)
Definition urlparse_str (url : string) : result ParseResult :=
  '(scheme, netloc, url, query, fragment) ← urlsplit url;
  let '(url, params) := split_params scheme url in
  mret (mkParseResult scheme netloc url params query fragment).

(** [urlparse(v)] for any value [v]. A [str] is parsed. Any other
    value goes through [_decode_args]: a false one is replaced by the
    empty string, so every component of the result is empty (and of
    type [bytes], of which only the truth value is ever read); a true
    one has no [decode] attribute. *)
Definition urlparse (v : json) : result ParseResult :=
  match v with
  | JStr url => urlparse_str url
  | _ =>
      if truthy v then Raise AttributeError
      else urlparse_str ""
  end.

End WithExternals.

Definition urlunsplit (scheme netloc url query fragment : string) : string :=
  let url :=
    if negb (String.eqb netloc "")
       || (negb (String.eqb scheme "") && in_list scheme uses_netloc
           && negb (String.eqb (Str.take 2 url) "//"))
    then
      let url :=
        if negb (String.eqb url "") && negb (String.eqb (Str.take 1 url) "/")
        then "/" ++ url else url in
      "//" ++ netloc ++ url
    else url in
  let url := if negb (String.eqb scheme "") then scheme ++ ":" ++ url else url in
  let url := if negb (String.eqb query "") then url ++ "?" ++ query else url in
  let url := if negb (String.eqb fragment "") then url ++ "#" ++ fragment else url in
  url.

Definition urlunparse (p : ParseResult) : string :=
  let url :=
    if negb (String.eqb (params p) "") then path p ++ ";" ++ params p else path p in
  urlunsplit (scheme p) (netloc p) url (query p) (fragment p).

End Url.

(** ** [os.path] (POSIX flavour) *)

Module OsPath.

(** [os.path.basename(p)]: the text after the last slash. *)
Definition basename (p : string) : string :=
  match Str.rfind "/" p with
  | Some i => Str.drop (S i) p
  | None => p
  end.

(** [os.path.join(a, b)] *)
Definition join (a b : string) : string :=
  if String.prefix "/" b then b
  else if String.eqb a "" || String.eqb (Str.drop (String.length a - 1) a) "/"
       then a ++ b
       else a ++ "/" ++ b.

End OsPath.

(** ** The tree walker of [sphinx_ext_mystmd.utils] *)

Module Utils.

(** Modelled from the spec: the children a node hands to
    [utils.breadth_first_walk], whose source is not at hand. An AST node is
    an object whose children are held in an ordered sequence under the
    field [children]; any other value has no children. *)
Definition children_of (node : json) : list json :=
  match node with
  | JObj members =>
      match dict_lookup "children" members with
      | Some (JArr items) => items
      | _ => []
      end
  | _ => []
  end.

(** Number of constructors of a value: a bound on the number of nodes
    the walk can reach from it. *)
Fixpoint size (t : json) : nat :=
  match t with
  | JArr items => S (list_sum (map size items))
  | JObj members =>
      S (list_sum (map (fun kv => match kv with (_, v) => size v end) members))
  | _ => 1
  end.

(** Modelled from the spec: the queue loop of [utils.breadth_first_walk]
    (the root first, then its children in document order, then its
    grandchildren, and so on). Each round takes the head of the queue,
    yields it and appends its children; [fuel] bounds the number of
    rounds. *)
Fixpoint walk_queue (fuel : nat) (queue : list json) : list json :=
  match fuel with
  | O => []
  | S fuel' =>
      match queue with
      | [] => []
      | this :: rest => this :: walk_queue fuel' (rest ++ children_of this)%list
      end
  end.

(** Modelled from the spec: [utils.breadth_first_walk], the sequence of
    all nodes reachable from the root, in breadth-first order. *)
Definition breadth_first_walk (node : json) : list json :=
  walk_queue (size node) [node].

(** [node["type"] == type_] on an AST node. *)
Definition has_type (type_ : string) (node : json) : bool :=
  match node with
  | JObj members =>
      match dict_lookup "type" members with
      | Some v => eq_str v type_
      | None => false
      end
  | _ => false
  end.

(** Modelled from the spec: [utils.find_by_type], whose source is not at
    hand; it yields the nodes of the walk whose [type] tag is the one
    asked for, in the order of the walk. *)
Definition find_by_type (type_ : string) (node : json) : list json :=
  filter (fun n => has_type type_ n = true) (breadth_first_walk node).

(** The fields of a node after [g] has run on each of its children. *)
Fixpoint update_children (g : json -> json) (members : list (string * json))
  : list (string * json) :=
  match members with
  | [] => []
  | (k, v) :: rest =>
      if String.eqb k "children"
      then (k, match v with
               | JArr items => JArr (map g items)
               | _ => v
               end) :: rest
      else (k, v) :: update_children g rest
  end.

(** The tree after a loop [for n in find_by_type(type_, node)] whose body
    updates [n] in place by [f]: every node the walk reaches and whose
    type is [type_] is replaced by [f] of it. [f] may change any field
    but [type] and [children]. *)
Fixpoint update_by_type (type_ : string) (f : json -> json) (t : json) : json :=
  match t with
  | JObj members =>
      let t' := JObj (update_children (update_by_type type_ f) members) in
      if has_type type_ t then f t' else t'
  | _ => t
  end.

End Utils.

(** ** The state the builders work on *)

(** [self.env]: the build environment of Sphinx. *)
Record BuildEnvironment : Type := {
  found_docs : gset string;
  all_docs : gset string;
  doc2path : string -> string;
}.

(** [self]: a builder with its environment and output directory. *)
Record Builder : Type := {
  env : BuildEnvironment;
  outdir : string;
}.

(** [os.path.getmtime] as a function of the path: [None] when the call
    raises, which for a path is an [OSError] (the file is missing or cannot
    be read); the time stamp is a finite float, embedded in the
    rationals. *)
Definition Stat : Type := string -> option Q.

(** A file is either a JSON document, as [json.dump] writes it and
    [json.load] reads it back, or any other sequence of bytes. *)
Inductive file : Type :=
| RawFile (contents : list byte)
| JsonFile (doc : json).

(** The files by path. Directories are not modelled: creating the parent
    directory of an output and opening an output for writing succeed. *)
Abbreviation Files := (gmap string file).

Section FileAccess.
Context `{Externals}.

(** [open(path, "rb").read()] *)
Definition read_bytes (fs : Files) (path : string) : result (list byte) :=
  match fs !! path with
  | Some (RawFile contents) => Ok contents
  | Some (JsonFile doc) => Ok (json_dumps doc)
  | None => Raise OSError
  end.

(** [json.load(open(path, "r"))]; [JSONDecodeError] is a [ValueError]. *)
Definition json_load (fs : Files) (path : string) : result json :=
  match fs !! path with
  | Some (JsonFile doc) => Ok doc
  | Some (RawFile _) => Raise ValueError
  | None => Raise OSError
  end.

(** [json.dump(doc, open(path, "w"), indent=2)] *)
Definition json_dump (doc : json) (path : string) (fs : Files) : Files :=
  <[path := JsonFile doc]> fs.

End FileAccess.

(** ** [class MySTBuilderMixin] *)

Module MySTBuilderMixin.
Section WithExternals.
Context `{Externals}.

(** The body of the loop of [transform_internal_links], run on one
    link node; the result is the node when the body ends. *)
Definition rewrite_link (docnames : gset string) (link : json) : result json :=
  url ← getitem link "url";
  parsed_uri ← Url.urlparse url;
  if negb (String.eqb (Url.scheme parsed_uri) "") || String.eqb (Url.path parsed_uri) ""
  then mret link
  else if negb (bool_decide (Url.path parsed_uri ∈ docnames))
  then mret link
  else
    let new_path := Url.path parsed_uri ++ ".myst.json" in
    setitem link "url" (JStr (Url.urlunparse (Url.replace_path new_path parsed_uri))).

(** A link node as the loop body leaves it when it does not raise. *)
Definition relink (docnames : gset string) (link : json) : json :=
  match rewrite_link docnames link with
  | Ok link' => link'
  | Raise _ => link
  end.

(** [transform_internal_links(self, node)]: the loop runs over the
    link nodes in the order of the walk and the first exception leaves
    it; otherwise the tree holds every link as its loop body left
    it. *)
Definition transform_internal_links (self : Builder) (node : json) : result json :=
  let docnames := found_docs (env self) in
  _ ← for_each (rewrite_link docnames) (Utils.find_by_type "link" node);
  mret (Utils.update_by_type "link" (relink docnames) node).

End WithExternals.
End MySTBuilderMixin.

(** ** [class MySTBuilder] *)

Module MySTBuilder.
Section WithExternals.
Context `{Externals}.

Definition _slugify (path : string) : string :=
  let name := OsPath.basename path in
  title_to_name name.

Definition _get_output_path (self : Builder) (doc_name : string) : string :=
  let target_stem := _slugify doc_name in
  path_div (outdir self) (target_stem ++ ".myst.json").

Definition _get_source_path (self : Builder) (doc_name : string) : string :=
  doc2path (env self) doc_name.

(** What one round of the loop of [get_outdated_docs] yields. *)
Definition outdated_step (self : Builder) (stat : Stat) (docname : string)
  : list string :=
  if negb (bool_decide (docname ∈ all_docs (env self))) then [docname]
  else
    let target_path := _get_output_path self docname in
    let targetmtime :=
      match stat target_path with
      | Some t => t
      | None => 0%Q
      end in
    let source_path := _get_source_path self docname in
    match stat source_path with
    | Some srcmtime =>
        match (srcmtime ?= targetmtime)%Q with
        | Gt => [docname]
        | _ => []
        end
    | None => []
    end.

(** [get_outdated_docs(self)]: the document names the generator
    yields, in order. *)
Definition get_outdated_docs (self : Builder) (stat : Stat) : list string :=
  flat_map (outdated_step self stat) (elements (found_docs (env self))).

(** [write_doc(self, doc_name, doc_tree)], where [mdast] is what the
    node visitor returns for [doc_tree]. *)
Definition write_doc (self : Builder) (doc_name : string) (mdast : json) (fs : Files)
  : result Files :=
  mdast ← MySTBuilderMixin.transform_internal_links self mdast;
  let output_path := _get_output_path self doc_name in
  mret (json_dump (JObj [("kind", JStr "Article"); ("mdast", mdast)]) output_path fs).

Definition get_target_uri (docname : string) : string := _slugify docname.

End WithExternals.
End MySTBuilder.

(** ** [class MySTXRefBuilder] *)

Module MySTXRefBuilder.
Section WithExternals.
Context `{Externals}.

Definition AST_VERSION : string := "1".
Definition MYST_VERSION : string := "1.36.0".

Definition _slugify (path : string) : string :=
  let name := OsPath.basename path in
  title_to_name name.

Definition _get_target_path (self : Builder) (doc_name : string) : string :=
  let target_stem := _slugify doc_name in
  path_div (path_div (outdir self) "content") (target_stem ++ ".json").

Definition _get_source_path (self : Builder) (doc_name : string) : string :=
  doc2path (env self) doc_name.

(** [f"{v}"]: a [str] is inserted as it is. *)
Definition fmt (v : json) : string :=
  match v with
  | JStr s => s
  | _ => format_value v
  end.

Definition _xref_kind_for_node (node : json) : result json :=
  type_ ← getitem node "type";
  if eq_str type_ "container" then get node "kind" (JStr "figure")
  else
    has_kind ← contains "kind" node;
    if has_kind : bool then
      type_ ← getitem node "type";
      kind ← getitem node "kind";
      mret (JStr (fmt type_ ++ ":" ++ fmt kind))
    else getitem node "type".

(** What one round of the loop of [_get_written_target_references]
    yields for [node]. *)
Definition reference_step (path slug : string) (node : json) : result (list json) :=
  has_identifier ← contains "identifier" node;
  if has_identifier : bool then
    identifier ← getitem node "identifier";
    kind ← _xref_kind_for_node node;
    mret [JObj [("identifier", identifier);
                ("kind", kind);
                ("data", JStr path);
                ("url", JStr ("/" ++ slug))]]
  else mret [].

(** [_get_written_target_references(self, doc)], consumed to its end:
    the reference entries it yields, in order. *)
Definition _get_written_target_references (self : Builder) (fs : Files) (doc : string)
  : result (list json) :=
  let path := _get_target_path self doc in
  let slug := _slugify doc in
  data ← json_load fs path;
  mdast ← getitem data "mdast";
  yielded ← for_each (reference_step path slug) (Utils.breadth_first_walk mdast);
  mret (concat yielded).

(** What one round of the loop of [get_outdated_docs] yields. *)
Definition outdated_step (self : Builder) (stat : Stat) (docname : string)
  : list string :=
  if negb (bool_decide (docname ∈ all_docs (env self))) then [docname]
  else
    let target_path := _get_target_path self docname in
    let targetmtime :=
      match stat target_path with
      | Some t => t
      | None => 0%Q
      end in
    match stat (doc2path (env self) docname) with
    | Some srcmtime =>
        match (srcmtime ?= targetmtime)%Q with
        | Gt => [docname]
        | _ => []
        end
    | None => []
    end.

Definition get_outdated_docs (self : Builder) (stat : Stat) : list string :=
  flat_map (outdated_step self stat) (elements (found_docs (env self))).

(** The title lifted from the tree: the text of the first heading, or
    [None]. *)
Definition lift_title (mdast : json) : option string :=
  match Utils.find_by_type "heading" mdast with
  | heading :: _ => Some (to_text heading)
  | [] => None
  end.

(** The document [write_doc] serialises. *)
Definition artifact (sha256 slug doc_name : string) (title : option string)
    (mdast : json) : json :=
  JObj [("kind", JStr "Article");
        ("sha256", JStr sha256);
        ("slug", JStr slug);
        ("location", JStr ("/" ++ doc_name));
        ("dependencies", JArr []);
        ("frontmatter",
          JObj [("title", match title with Some t => JStr t | None => JNull end);
                ("content_includes_title",
                  JBool (match title with Some _ => true | None => false end))]);
        ("mdast", mdast);
        ("references",
          JObj [("cite", JObj [("order", JArr []); ("data", JObj [])])])].

(** [write_doc(self, doc_name, doc_tree)], where [mdast] is what the
    node visitor returns for [doc_tree]. *)
Definition write_doc (self : Builder) (doc_name : string) (mdast : json) (fs : Files)
  : result Files :=
  mdast ← MySTBuilderMixin.transform_internal_links self mdast;
  let slug := _slugify doc_name in
  let target_path := _get_target_path self doc_name in
  let source_path := _get_source_path self doc_name in
  contents ← read_bytes fs source_path;
  let sha256 := sha256_hexdigest contents in
  let title := lift_title mdast in
  mret (json_dump (artifact sha256 slug doc_name title mdast) target_path fs).

Definition page_reference (self : Builder) (n : string) : json :=
  JObj [("kind", JStr "page");
        ("url", JStr ("/" ++ _slugify n));
        ("data", JStr (_get_target_path self n))].

(** The manifest [finish] serialises. *)
Definition xref (references : list json) : json :=
  JObj [("version", JStr AST_VERSION);
        ("myst", JStr MYST_VERSION);
        ("references", JArr references)].

Definition manifest_path (self : Builder) : string :=
  OsPath.join (outdir self) "myst.xref.json".

Definition finish (self : Builder) (fs : Files) : result Files :=
  let docs := elements (found_docs (env self)) in
  let page_references := map (page_reference self) docs in
  refs ← for_each (_get_written_target_references self fs) docs;
  let target_references := concat refs in
  let references := (page_references ++ target_references)%list in
  mret (json_dump (xref references) (manifest_path self) fs).

Definition get_target_uri (docname : string) : string := _slugify docname.

End WithExternals.
End MySTXRefBuilder.

(** ** Vocabulary of the statements *)

(** The keys of a JSON object, in order. *)
Definition keys (doc : json) : list string :=
  match doc with
  | JObj members => map fst members
  | _ => []
  end.

(** The output modification time the staleness check compares with: [0]
    when the output cannot be statted. *)
Definition mtime_or_zero (stat : Stat) (path : string) : Q :=
  match stat path with
  | Some t => t
  | None => 0%Q
  end.

(** [True] of a node that carries an [identifier] field. *)
Definition has_identifier (node : json) : bool :=
  match node with
  | JObj members => bool_decide (is_Some (dict_lookup "identifier" members))
  | _ => false
  end.

(** An AST node as the data model has it: an object, with a [type] field
    at least when it carries an [identifier]. *)
Definition ast_node (node : json) : bool :=
  match node with
  | JObj members =>
      if bool_decide (is_Some (dict_lookup "identifier" members))
      then bool_decide (is_Some (dict_lookup "type" members))
      else true
  | _ => false
  end.

(** A node the walker can test for its type: an object with a [type]
    field, so that [node["type"]] does not raise. *)
Definition typed_node (node : json) : bool :=
  match node with
  | JObj members => bool_decide (is_Some (dict_lookup "type" members))
  | _ => false
  end.

Section ReferenceEntries.
Context `{Externals}.

(** The reference kind of an AST node, as a function. *)
Definition xref_kind (node : json) : json :=
  match node with
  | JObj members =>
      match dict_lookup "type" members with
      | Some type_ =>
          match eq_str type_ "container", dict_lookup "kind" members with
          | true, Some kind => kind
          | true, None => JStr "figure"
          | false, Some kind =>
              JStr (MySTXRefBuilder.fmt type_ ++ ":" ++ MySTXRefBuilder.fmt kind)
          | false, None => type_
          end
      | None => JNull
      end
  | _ => JNull
  end.

(** The node-level reference entry of [node] in document [doc]. *)
Definition node_reference (self : Builder) (doc : string) (node : json) : json :=
  JObj [("identifier",
          match node with
          | JObj members => default JNull (dict_lookup "identifier" members)
          | _ => JNull
          end);
        ("kind", xref_kind node);
        ("data", JStr (MySTXRefBuilder._get_target_path self doc));
        ("url", JStr ("/" ++ MySTXRefBuilder._slugify doc))].

(** The AST held by the artifact of [doc], when the artifact is there
    and is a JSON object with an [mdast] member. *)
Definition written_mdast (self : Builder) (fs : Files) (doc : string) : option json :=
  match fs !! MySTXRefBuilder._get_target_path self doc with
  | Some (JsonFile (JObj members)) => dict_lookup "mdast" members
  | _ => None
  end.

(** The node-level entries of [doc]: one per identifier-bearing node of
    its artifact, in the order of the breadth-first walk. *)
Definition node_references (self : Builder) (fs : Files) (doc : string) : list json :=
  match written_mdast self fs doc with
  | Some mdast =>
      map (node_reference self doc)
          (filter (fun n => has_identifier n = true) (Utils.breadth_first_walk mdast))
  | None => []
  end.

End ReferenceEntries.

(** The links the rewrite applies to: no scheme, a path that is not empty
    and that is a known document id. *)
Definition eligible (docnames : gset string) (p : Url.ParseResult) : bool :=
  String.eqb (Url.scheme p) "" && negb (String.eqb (Url.path p) "")
  && bool_decide (Url.path p ∈ docnames).

(** The URL the rewrite assigns to an eligible link: the components of the
    parsed URL with the suffix appended to the path, put together again. *)
Definition rewritten_url (p : Url.ParseResult) : string :=
  Url.urlunparse
    {| Url.scheme := Url.scheme p;
       Url.netloc := Url.netloc p;
       Url.path := Url.path p ++ ".myst.json";
       Url.params := Url.params p;
       Url.query := Url.query p;
       Url.fragment := Url.fragment p |}.

Section LinkUpdate.
Context `{Externals}.

(** The whole tree after the loop of [transform_internal_links]. *)
Definition relink_tree (docnames : gset string) : json -> json :=
  Utils.update_by_type "link" (MySTBuilderMixin.relink docnames).

End LinkUpdate.

(** The path, parameters, query and fragment [urlparse] reads off a URL
    that has neither scheme nor network location. *)
Definition components (url : string) : string * string * string * string :=
  let '(url, fragment) := Url.split_at "#" url in
  let '(url, query) := Url.split_at "?" url in
  let '(url, params) := Url.split_params "" url in
  (url, params, query, fragment).

(** [urlunparse] of components without scheme and network location. *)
Definition assemble (path params query fragment : string) : string :=
  Url.urlunparse (Url.mkParseResult "" "" path params query fragment).

(** The test by which [urlsplit] finds a scheme. *)
Definition has_scheme (url : string) : bool :=
  match Str.find ":" url with
  | Some (S i') =>
      match url with
      | String c0 _ => Str.is_ascii_alpha c0 && Str.all Url.scheme_char (Str.take (S i') url)
      | EmptyString => false
      end
  | _ => false
  end.

(** The characters that end the path in a URL. *)
Definition delimiter (d : ascii) : bool :=
  Ascii.eqb d ";" || Ascii.eqb d "?" || Ascii.eqb d "#".

(** Texts that can follow the path: nothing, or a delimiter and more. *)
Definition delimited (x : string) : bool :=
  match x with
  | EmptyString => true
  | String d _ => delimiter d
  end.

(** Components as [urlparse] returns them: each is free of the delimiters
    that would end it earlier. *)
Record plain_components (path params query fragment : string) : Prop := {
  path_no_hash : Str.find "#" path = None;
  path_no_question : Str.find "?" path = None;
  path_tail_clear : Str.find ";" (OsPath.basename path) = None;
  params_no_hash : Str.find "#" params = None;
  params_no_question : Str.find "?" params = None;
  params_no_slash : Str.find "/" params = None;
  query_no_hash : Str.find "#" query = None;
}.

(** What can follow a network location: nothing, or a text that starts
    with a slash, a question mark or a hash. *)
Definition after_netloc (rest : string) : Prop :=
  rest = "" \/ exists d r, rest = String d r /\ (d = "/" \/ d = "?" \/ d = "#")%char.

(** The suffix the link rewrite appends. *)
Definition json_suffix : string := ".myst.json".

(** The URL as [urlsplit] reads it: leading control characters and
    spaces stripped, tabs and line ends removed. *)
Definition clean (url : string) : string :=
  Str.remove Url.unsafe_url_byte (Str.lstrip Url.c0_control_or_space url).

(** The corpora on which the link rewrite is idempotent: no document id
    starts with a slash, and no document id is another one followed by the
    suffix. *)
Definition settled_corpus (docnames : gset string) : Prop :=
  forall d, d ∈ docnames ->
    String.prefix "/" d = false /\ d ++ json_suffix ∉ docnames.

(** The queue of the walk weighs the sizes of its trees. *)
Definition weight (queue : list json) : nat := list_sum (map Utils.size queue).

(** A sample instance of the external functions and a sample corpus, used
    to run the definitions on concrete inputs. *)
Module Sample.

Definition externals : Externals := {|
  title_to_name := fun s => s;
  to_text := fun _ => "Intro";
  path_div := fun a b => a ++ "/" ++ b;
  sha256_hexdigest := fun _ => "e3b0c442";
  json_dumps := fun _ => [];
  format_value := fun _ => "None";
  netloc_accepted := fun _ => true;
|}.

Definition environment : BuildEnvironment := {|
  found_docs := {[ "intro"; "guide"; "gone" ]};
  all_docs := {[ "guide"; "gone" ]};
  doc2path := fun d => "src/" ++ d ++ ".rst";
|}.

Definition builder : Builder := {| env := environment; outdir := "out" |}.

(** A corpus in which a document id is another one followed by the
    suffix of the link rewrite. *)
Definition twin_builder : Builder :=
  {| env := {| found_docs := {[ "guide"; "guide.myst.json" ]};
               all_docs := ∅;
               doc2path := fun d => "src/" ++ d ++ ".rst" |};
     outdir := "out" |}.

(** A corpus with a document id that starts with two slashes. *)
Definition slashes_builder : Builder :=
  {| env := {| found_docs := {[ "//[/y" ]};
               all_docs := ∅;
               doc2path := fun d => "src/" ++ d ++ ".rst" |};
     outdir := "out" |}.

(** A paragraph whose only child is a link to [url]. *)
Definition paragraph_with_link (url : string) : json :=
  JObj [("type", JStr "paragraph");
        ("children", JArr [JObj [("type", JStr "link"); ("url", JStr url)]])].

(** A builder whose corpus is empty. *)
Definition empty_builder : Builder :=
  {| env := {| found_docs := ∅; all_docs := ∅; doc2path := fun d => d |};
     outdir := "out" |}.

Definition link (url : string) : json :=
  JObj [("type", JStr "link"); ("url", JStr url)].

Definition intro_mdast : json :=
  JObj [("type", JStr "root");
        ("children",
          JArr [JObj [("type", JStr "heading"); ("identifier", JStr "intro");
                      ("children",
                        JArr [JObj [("type", JStr "text"); ("value", JStr "Intro")]])];
                JObj [("type", JStr "paragraph");
                      ("children", JArr [link "guide"; link "https://example.org/"])];
                JObj [("type", JStr "container"); ("kind", JStr "table");
                      ("identifier", JStr "tab-1")]])].

Definition guide_mdast : json :=
  JObj [("type", JStr "root");
        ("children",
          JArr [JObj [("type", JStr "paragraph");
                      ("children",
                        JArr [JObj [("type", JStr "math"); ("kind", JStr "inline");
                                    ("identifier", JStr "eq-1")]])]])].

(** The sources of [intro] and [guide], and the artifact left by an
    earlier build of [gone]. *)
Definition sources : Files :=
  {[ "src/intro.rst" := RawFile [];
     "src/guide.rst" := RawFile [];
     "out/content/gone.json" :=
       JsonFile (JObj [("kind", JStr "Article");
                       ("mdast", JObj [("type", JStr "root"); ("children", JArr [])])]) ]}.

(** [intro_mdast] after the link to [guide] has been rewritten. *)
Definition intro_written : json :=
  JObj [("type", JStr "root");
        ("children",
          JArr [JObj [("type", JStr "heading"); ("identifier", JStr "intro");
                      ("children",
                        JArr [JObj [("type", JStr "text"); ("value", JStr "Intro")]])];
                JObj [("type", JStr "paragraph");
                      ("children",
                        JArr [link "guide.myst.json"; link "https://example.org/"])];
                JObj [("type", JStr "container"); ("kind", JStr "table");
                      ("identifier", JStr "tab-1")]])].

(** The files after [intro] and [guide] have been written. *)
Definition written : Files :=
  match
    fs ← MySTXRefBuilder.write_doc (H := externals) builder "intro" intro_mdast sources;
    MySTXRefBuilder.write_doc (H := externals) builder "guide" guide_mdast fs
  with
  | Ok fs => fs
  | Raise _ => sources
  end.

(** [guide] was built at time 5 and its source changed at time 3;
    [intro] was never built; the source of [gone] has been deleted. *)
Definition stat : Stat := fun p =>
  if String.eqb p "src/guide.rst" then Some (3 # 1)
  else if String.eqb p "src/intro.rst" then Some (4 # 1)
  else if String.eqb p "out/content/guide.json" then Some (5 # 1)
  else if String.eqb p "out/guide.myst.json" then Some (5 # 1)
  else None.

(** A paragraph whose only child is a link without [url]. *)
Definition paragraph_with_bare_link : json :=
  JObj [("type", JStr "paragraph");
        ("children", JArr [JObj [("type", JStr "link")]])].

(** The files after [intro] has been written. *)
Definition intro_only : Files :=
  match MySTXRefBuilder.write_doc (H := externals) builder "intro" intro_mdast sources with
  | Ok fs => fs
  | Raise _ => sources
  end.

(** The files after the finishing pass. *)
Definition finished : Files :=
  match MySTXRefBuilder.finish (H := externals) builder written with
  | Ok fs => fs
  | Raise _ => written
  end.

(** A corpus with two document ids of the same basename, and the one
    artifact both of them name. *)
Definition colliding_builder : Builder :=
  {| env := {| found_docs := {[ "a/index"; "b/index" ]};
               all_docs := ∅;
               doc2path := fun d => "src/" ++ d ++ ".rst" |};
     outdir := "out" |}.

Definition colliding_files : Files :=
  {[ "out/content/index.json" :=
       JsonFile (JObj [("kind", JStr "Article");
                       ("mdast", JObj [("type", JStr "root"); ("children", JArr [])])]) ]}.

Definition colliding_finished : Files :=
  match MySTXRefBuilder.finish (H := externals) colliding_builder colliding_files with
  | Ok fs => fs
  | Raise _ => colliding_files
  end.

(** [guide] was built, its output is gone, and its source carries the
    time stamp 0 of the epoch. *)
Definition epoch_stat : Stat := fun p =>
  if String.eqb p "src/guide.rst" then Some 0%Q else None.

End Sample.

(** ** Staleness detection *)

Section Staleness.
Context `{Externals}.

Lemma compare_gt_iff (s t : Q) : (s ?= t)%Q = Gt <-> (t < s)%Q.
Proof. symmetry. apply Qgt_alt. Qed.

Lemma elem_of_flat_map_step {A B : Type} (f : A -> list B) (l : list A) (y : B) :
  y ∈ flat_map f l <-> exists x, x ∈ l /\ y ∈ f x.
Proof.
  rewrite !list_elem_of_In, in_flat_map.
  split; intros (x & Hx & Hy); exists x; rewrite ?list_elem_of_In in *; auto.
Qed.

(** One round of either loop, with what it reads made explicit: whether
    the document was built before, the time stamp of the output and the
    result of the [os.stat] of the source. *)
Lemma outdated_round (built : bool) (target : Q) (source : option Q) (d x : string) :
  x ∈ (if negb built then [d]
       else match source with
            | Some srcmtime =>
                match (srcmtime ?= target)%Q with
                | Gt => [d]
                | _ => []
                end
            | None => []
            end) <->
  x = d /\
  (built = false \/ built = true /\ exists s, source = Some s /\ (target < s)%Q).
Proof.
  destruct built; simpl.
  - destruct source as [s|].
    + destruct (s ?= target)%Q eqn:Hc.
      * split; [intros Hx; inversion Hx|].
        intros (_ & [Hn | (_ & s' & Hs' & Hlt)]); [done|].
        inversion Hs'; subst s'. apply compare_gt_iff in Hlt. congruence.
      * split; [intros Hx; inversion Hx|].
        intros (_ & [Hn | (_ & s' & Hs' & Hlt)]); [done|].
        inversion Hs'; subst s'. apply compare_gt_iff in Hlt. congruence.
      * rewrite list_elem_of_singleton. split.
        -- intros ->. split; [done|]. right. split; [done|].
           exists s. split; [done|]. by apply compare_gt_iff.
        -- by intros (-> & _).
    + split; [intros Hx; inversion Hx|].
      intros (_ & [Hn | (_ & s' & Hs' & _)]); [done | discriminate].
  - rewrite list_elem_of_singleton. split.
    + intros ->. split; [done|]. by left.
    + by intros (-> & _).
Qed.

Lemma myst_outdated_step_spec (self : Builder) (stat : Stat) (d x : string) :
  x ∈ MySTBuilder.outdated_step self stat d <->
  x = d /\
  (d ∉ all_docs (env self) \/
   d ∈ all_docs (env self) /\
   exists s, stat (MySTBuilder._get_source_path self d) = Some s /\
             (mtime_or_zero stat (MySTBuilder._get_output_path self d) < s)%Q).
Proof.
  unfold MySTBuilder.outdated_step, mtime_or_zero. cbv zeta.
  by rewrite outdated_round, bool_decide_eq_false, bool_decide_eq_true.
Qed.

Lemma xref_outdated_step_spec (self : Builder) (stat : Stat) (d x : string) :
  x ∈ MySTXRefBuilder.outdated_step self stat d <->
  x = d /\
  (d ∉ all_docs (env self) \/
   d ∈ all_docs (env self) /\
   exists s, stat (MySTXRefBuilder._get_source_path self d) = Some s /\
             (mtime_or_zero stat (MySTXRefBuilder._get_target_path self d) < s)%Q).
Proof.
  unfold MySTXRefBuilder.outdated_step, mtime_or_zero. cbv zeta.
  by rewrite outdated_round, bool_decide_eq_false, bool_decide_eq_true.
Qed.

Lemma myst_get_outdated_docs_spec (self : Builder) (stat : Stat) (d : string) :
  d ∈ MySTBuilder.get_outdated_docs self stat <->
  d ∈ found_docs (env self) /\
  (d ∉ all_docs (env self) \/
   d ∈ all_docs (env self) /\
   exists s, stat (MySTBuilder._get_source_path self d) = Some s /\
             (mtime_or_zero stat (MySTBuilder._get_output_path self d) < s)%Q).
Proof.
  unfold MySTBuilder.get_outdated_docs. rewrite elem_of_flat_map_step. split.
  - intros (x & Hx & Hd). apply myst_outdated_step_spec in Hd as [-> Hd].
    by apply elem_of_elements in Hx.
  - intros [Hf Hd]. exists d. split; [by apply elem_of_elements|].
    by apply myst_outdated_step_spec.
Qed.

Lemma xref_get_outdated_docs_spec (self : Builder) (stat : Stat) (d : string) :
  d ∈ MySTXRefBuilder.get_outdated_docs self stat <->
  d ∈ found_docs (env self) /\
  (d ∉ all_docs (env self) \/
   d ∈ all_docs (env self) /\
   exists s, stat (MySTXRefBuilder._get_source_path self d) = Some s /\
             (mtime_or_zero stat (MySTXRefBuilder._get_target_path self d) < s)%Q).
Proof.
  unfold MySTXRefBuilder.get_outdated_docs. rewrite elem_of_flat_map_step. split.
  - intros (x & Hx & Hd). apply xref_outdated_step_spec in Hd as [-> Hd].
    by apply elem_of_elements in Hx.
  - intros [Hf Hd]. exists d. split; [by apply elem_of_elements|].
    by apply xref_outdated_step_spec.
Qed.

(** The generator yields a document at most once. *)
Lemma myst_get_outdated_docs_NoDup (self : Builder) (stat : Stat) :
  NoDup (MySTBuilder.get_outdated_docs self stat).
Proof.
  unfold MySTBuilder.get_outdated_docs.
  pose proof (NoDup_elements (found_docs (env self))) as Hnd.
  induction Hnd as [|x l Hx Hnd IH]; simpl; [constructor|].
  apply NoDup_app. split; [|split; [|done]].
  - unfold MySTBuilder.outdated_step.
    repeat case_match; first [apply NoDup_nil_2 | apply NoDup_singleton].
  - intros y Hy Hy'. apply myst_outdated_step_spec in Hy as [-> _].
    apply elem_of_flat_map_step in Hy' as (z & Hz & Hy').
    apply myst_outdated_step_spec in Hy' as [-> _]. done.
Qed.

(** C1. A known document is yielded by [get_outdated_docs] exactly when
    it was never built or, having been built, its source can be statted
    and its modification time is strictly greater than that of the
    output, taken as 0 when the output cannot be statted. Equal times
    therefore leave the document out. Both builders. *)
Theorem C1_get_outdated_docs_stale_iff (self : Builder) (stat : Stat) (d : string) :
  (d ∈ MySTBuilder.get_outdated_docs self stat <->
   d ∈ found_docs (env self) /\
   (d ∉ all_docs (env self) \/
    d ∈ all_docs (env self) /\
    exists s, stat (MySTBuilder._get_source_path self d) = Some s /\
              (mtime_or_zero stat (MySTBuilder._get_output_path self d) < s)%Q))
  /\
  (d ∈ MySTXRefBuilder.get_outdated_docs self stat <->
   d ∈ found_docs (env self) /\
   (d ∉ all_docs (env self) \/
    d ∈ all_docs (env self) /\
    exists s, stat (MySTXRefBuilder._get_source_path self d) = Some s /\
              (mtime_or_zero stat (MySTXRefBuilder._get_target_path self d) < s)%Q)).
Proof.
  split; [apply myst_get_outdated_docs_spec | apply xref_get_outdated_docs_spec].
Qed.

(** Ties: a built document whose source is exactly as old as its output
    is not yielded. *)
Lemma get_outdated_docs_tie (self : Builder) (stat : Stat) (d : string) (s : Q) :
  d ∈ all_docs (env self) ->
  stat (doc2path (env self) d) = Some s ->
  (s == mtime_or_zero stat (MySTBuilder._get_output_path self d))%Q ->
  d ∉ MySTBuilder.get_outdated_docs self stat.
Proof.
  intros Hall Hs Heq Hin.
  apply myst_get_outdated_docs_spec in Hin as [_ [Hn | (_ & s' & Hs' & Hlt)]]; [done|].
  unfold MySTBuilder._get_source_path in Hs'. rewrite Hs in Hs'. inversion Hs'; subst s'.
  rewrite Heq in Hlt. by apply Qlt_irrefl in Hlt.
Qed.

(** C8. A document that was built before and whose source can no longer
    be statted is not yielded by [get_outdated_docs], which is a total
    function: the failed [os.stat] is swallowed. Both builders. *)
Theorem C8_get_outdated_docs_source_gone (self : Builder) (stat : Stat) (d : string) :
  d ∈ all_docs (env self) ->
  stat (doc2path (env self) d) = None ->
  (d ∉ MySTBuilder.get_outdated_docs self stat) /\
  (d ∉ MySTXRefBuilder.get_outdated_docs self stat).
Proof.
  intros Hall Hgone. split; intros Hin.
  - apply myst_get_outdated_docs_spec in Hin as [_ [Hn | (_ & s & Hs & _)]]; [done|].
    unfold MySTBuilder._get_source_path in Hs. congruence.
  - apply xref_get_outdated_docs_spec in Hin as [_ [Hn | (_ & s & Hs & _)]]; [done|].
    unfold MySTXRefBuilder._get_source_path in Hs. congruence.
Qed.

End Staleness.

Lemma C8_witness :
  ("gone" ∉ MySTBuilder.get_outdated_docs (H := Sample.externals) Sample.builder Sample.stat) /\
  ("gone" ∉ MySTXRefBuilder.get_outdated_docs (H := Sample.externals) Sample.builder Sample.stat).
Proof.
  apply (C8_get_outdated_docs_source_gone (H := Sample.externals)
           Sample.builder Sample.stat "gone").
  - simpl. set_solver.
  - reflexivity.
Defined.

(** ** Loops that may raise *)

Section ForEach.
Context {A B : Type} (f : A -> result B).

Lemma for_each_Ok (l : list A) (ys : list B) :
  for_each f l = Ok ys <-> Forall2 (fun x y => f x = Ok y) l ys.
Proof.
  revert ys. induction l as [|x l IH]; intros ys; simpl.
  - split.
    + intros Heq. inversion Heq. constructor.
    + intros Hall. by inversion Hall.
  - destruct (f x) as [y|e] eqn:Hfx; simpl.
    + destruct (for_each f l) as [ys'|e] eqn:Hl; simpl.
      * split.
        -- intros Heq. inversion Heq; subst. constructor; [done|]. by apply IH.
        -- intros Hall. inversion Hall as [|? y' ? ys'' Hy Hrest]; subst.
           apply IH in Hrest. rewrite Hfx in Hy.
           inversion Hy; inversion Hrest; by subst.
      * split; [discriminate|].
        intros Hall. inversion Hall as [|? y' ? ys'' Hy Hrest]; subst.
        apply IH in Hrest. discriminate.
    + split; [discriminate|].
      intros Hall. inversion Hall as [|? y' ? ys'' Hy Hrest]; subst. congruence.
Qed.

(** When no round raises, the loop returns what the rounds return. *)
Lemma for_each_total (g : A -> B) (l : list A) :
  Forall (fun x => f x = Ok (g x)) l -> for_each f l = Ok (map g l).
Proof.
  intros Hall. apply for_each_Ok. induction Hall; constructor; auto.
Qed.

Lemma for_each_Raise (l : list A) (e : exn) :
  for_each f l = Raise e -> exists x, x ∈ l /\ f x = Raise e.
Proof.
  induction l as [|x l IH]; simpl; [discriminate|].
  destruct (f x) as [y|e'] eqn:Hfx; simpl.
  - destruct (for_each f l) as [ys|e'] eqn:Hl; simpl; [discriminate|].
    intros Heq. inversion Heq; subst.
    destruct IH as (x' & Hin & Hx'); [done|].
    exists x'. split; [by right | done].
  - intros Heq. inversion Heq; subst. exists x. split; [by left | done].
Qed.

End ForEach.

(** ** Classification of reference kinds *)

Section Kinds.
Context `{Externals}.

(** C2. For a node with a [type] field, [_xref_kind_for_node] returns the
    [kind] field when the type is ["container"] and a kind is present,
    ["figure"] when the type is ["container"] and no kind is present, the
    colon-joined ["{type}:{kind}"] when the type is not ["container"] and
    a kind is present, and the bare type otherwise. *)
Theorem C2_xref_kind_for_node (members : list (string * json)) (type_ : json) :
  dict_lookup "type" members = Some type_ ->
  MySTXRefBuilder._xref_kind_for_node (JObj members) =
  Ok (match eq_str type_ "container", dict_lookup "kind" members with
      | true, Some kind => kind
      | true, None => JStr "figure"
      | false, Some kind =>
          JStr (MySTXRefBuilder.fmt type_ ++ ":" ++ MySTXRefBuilder.fmt kind)
      | false, None => type_
      end).
Proof.
  intros Htype. unfold MySTXRefBuilder._xref_kind_for_node. simpl.
  rewrite Htype. simpl.
  destruct (eq_str type_ "container"); simpl.
  - by destruct (dict_lookup "kind" members).
  - by destruct (dict_lookup "kind" members).
Qed.

End Kinds.

(** The four nodes of the kind-classification examples. *)
Lemma C2_witness :
  MySTXRefBuilder._xref_kind_for_node (H := Sample.externals)
    (JObj [("type", JStr "container"); ("kind", JStr "table")]) = Ok (JStr "table") /\
  MySTXRefBuilder._xref_kind_for_node (H := Sample.externals)
    (JObj [("type", JStr "container")]) = Ok (JStr "figure") /\
  MySTXRefBuilder._xref_kind_for_node (H := Sample.externals)
    (JObj [("type", JStr "math"); ("kind", JStr "inline")]) = Ok (JStr "math:inline") /\
  MySTXRefBuilder._xref_kind_for_node (H := Sample.externals)
    (JObj [("type", JStr "paragraph")]) = Ok (JStr "paragraph").
Proof.
  split; [|split; [|split]].
  - exact (C2_xref_kind_for_node (H := Sample.externals)
             [("type", JStr "container"); ("kind", JStr "table")] (JStr "container") eq_refl).
  - exact (C2_xref_kind_for_node (H := Sample.externals)
             [("type", JStr "container")] (JStr "container") eq_refl).
  - exact (C2_xref_kind_for_node (H := Sample.externals)
             [("type", JStr "math"); ("kind", JStr "inline")] (JStr "math") eq_refl).
  - exact (C2_xref_kind_for_node (H := Sample.externals)
             [("type", JStr "paragraph")] (JStr "paragraph") eq_refl).
Defined.

(** ** The cross-reference manifest *)

Section Manifest.
Context `{Externals}.

(** What a round of the reference loop yields has the shape of a node
    entry of the document. *)
Lemma reference_step_shape (path slug : string) (node : json) (ys : list json) (r : json) :
  MySTXRefBuilder.reference_step path slug node = Ok ys ->
  r ∈ ys ->
  exists identifier kind,
    r = JObj [("identifier", identifier); ("kind", kind);
              ("data", JStr path); ("url", JStr ("/" ++ slug))].
Proof.
  unfold MySTXRefBuilder.reference_step.
  destruct (contains "identifier" node) as [[|]|e]; simpl; [| |discriminate].
  - destruct (getitem node "identifier") as [identifier|e]; simpl; [|discriminate].
    destruct (MySTXRefBuilder._xref_kind_for_node node) as [kind|e]; simpl; [|discriminate].
    intros Heq Hin. inversion Heq; subst.
    apply list_elem_of_singleton in Hin as ->. eauto.
  - intros Heq Hin. inversion Heq; subst. inversion Hin.
Qed.

(** On an AST node the round does not raise, and yields the node entry
    when the node carries an identifier. *)
Lemma reference_step_ast_node (self : Builder) (doc : string) (node : json) :
  ast_node node = true ->
  MySTXRefBuilder.reference_step
    (MySTXRefBuilder._get_target_path self doc) (MySTXRefBuilder._slugify doc) node =
  Ok (if has_identifier node then [node_reference self doc node] else []).
Proof.
  destruct node as [| | | | | |members]; simpl; try discriminate.
  unfold MySTXRefBuilder.reference_step, node_reference. simpl.
  destruct (dict_lookup "identifier" members) as [identifier|] eqn:Hid; simpl; [|done].
  destruct (dict_lookup "type" members) as [type_|] eqn:Hty; simpl; [|discriminate].
  intros _. unfold MySTXRefBuilder._xref_kind_for_node. simpl. rewrite Hty. simpl.
  destruct (eq_str type_ "container"); simpl.
  - by destruct (dict_lookup "kind" members).
  - by destruct (dict_lookup "kind" members).
Qed.

Lemma concat_map_if {A B : Type} (p : A -> bool) (g : A -> B) (l : list A) :
  concat (map (fun x => if p x then [g x] else []) l) =
  map g (filter (fun x => p x = true) l).
Proof.
  induction l as [|x l IH]; simpl; [done|].
  rewrite filter_cons. destruct (p x) eqn:Hp.
  - rewrite decide_True by done. simpl. by rewrite IH.
  - rewrite decide_False by congruence. done.
Qed.

(** Re-reading the artifact of a document whose AST is made of AST nodes
    gives the node entries of the document. *)
Lemma get_written_target_references_ast (self : Builder) (fs : Files) (doc : string)
    (mdast : json) :
  written_mdast self fs doc = Some mdast ->
  Forall (fun n => ast_node n = true) (Utils.breadth_first_walk mdast) ->
  MySTXRefBuilder._get_written_target_references self fs doc =
  Ok (node_references self fs doc).
Proof.
  intros Hw Hast. unfold node_references. rewrite Hw.
  unfold written_mdast in Hw.
  unfold MySTXRefBuilder._get_written_target_references, json_load.
  destruct (fs !! _) as [[contents|[| | | | | |members]]|]; try discriminate.
  simpl. rewrite Hw. simpl.
  rewrite (for_each_total _
             (fun n => if has_identifier n then [node_reference self doc n] else [])).
  - simpl. by rewrite concat_map_if.
  - eapply Forall_impl; [exact Hast|].
    intros n Hn. by apply reference_step_ast_node.
Qed.

(** C10. Every entry [_get_written_target_references] yields for a
    document has the four fields [identifier], [kind], [data] and [url],
    where [data] is the path of the document's artifact and [url] is
    ["/"] followed by the document's slug: the same for every node, with
    nothing of the node in the [url]. *)
Theorem C10_node_reference_url_and_data (self : Builder) (fs : Files) (doc : string)
    (refs : list json) (r : json) :
  MySTXRefBuilder._get_written_target_references self fs doc = Ok refs ->
  r ∈ refs ->
  exists identifier kind,
    r = JObj [("identifier", identifier);
              ("kind", kind);
              ("data", JStr (MySTXRefBuilder._get_target_path self doc));
              ("url", JStr ("/" ++ MySTXRefBuilder._slugify doc))].
Proof.
  unfold MySTXRefBuilder._get_written_target_references.
  destruct (json_load fs _) as [data|e]; simpl; [|discriminate].
  destruct (getitem data "mdast") as [mdast|e]; simpl; [|discriminate].
  destruct (for_each _ _) as [yielded|e] eqn:Hloop; simpl; [|discriminate].
  intros Heq Hin. inversion Heq; subst. clear Heq.
  apply for_each_Ok in Hloop.
  apply list_elem_of_In, in_concat in Hin as (ys & Hys & Hr).
  apply list_elem_of_In in Hys, Hr.
  apply list_elem_of_lookup in Hys as (i & Hi).
  destruct (Forall2_lookup_r _ _ _ _ _ Hloop Hi) as (node & _ & Hstep).
  by eapply reference_step_shape.
Qed.

Lemma finish_Ok (self : Builder) (fs : Files) (refs : list (list json)) :
  for_each (MySTXRefBuilder._get_written_target_references self fs)
           (elements (found_docs (env self))) = Ok refs ->
  MySTXRefBuilder.finish self fs =
  Ok (<[MySTXRefBuilder.manifest_path self :=
          JsonFile (MySTXRefBuilder.xref
                      (map (MySTXRefBuilder.page_reference self)
                           (elements (found_docs (env self))) ++ concat refs))]> fs).
Proof. intros Hloop. unfold MySTXRefBuilder.finish. by rewrite Hloop. Qed.

(** C3. When the artifact of every known document can be re-read and
    holds an AST, [finish] writes a manifest whose [references] member is
    the list made of one page entry per known document, in the order the
    documents are iterated, followed by the node entries of each document
    in the same order of documents, the node entries of a document being
    those of the identifier-bearing nodes of its artifact in the order of
    the breadth-first walk. The page entry of a document is the object
    with [kind] ["page"], the document's URL and the path of its
    artifact. The iteration visits every known document once. *)
Theorem C3_finish_references (self : Builder) (fs : Files) :
  (forall d, d ∈ found_docs (env self) ->
     exists mdast,
       written_mdast self fs d = Some mdast /\
       Forall (fun n => ast_node n = true) (Utils.breadth_first_walk mdast)) ->
  let docs := elements (found_docs (env self)) in
  MySTXRefBuilder.finish self fs =
  Ok (<[MySTXRefBuilder.manifest_path self :=
          JsonFile
            (JObj [("version", JStr "1");
                   ("myst", JStr "1.36.0");
                   ("references",
                     JArr (map (fun d =>
                                  JObj [("kind", JStr "page");
                                        ("url", JStr ("/" ++ MySTXRefBuilder._slugify d));
                                        ("data",
                                          JStr (MySTXRefBuilder._get_target_path self d))])
                               docs ++
                           flat_map (node_references self fs) docs))])]> fs)
  /\ NoDup docs
  /\ (forall d, d ∈ docs <-> d ∈ found_docs (env self)).
Proof.
  intros Hart docs. split; [|split].
  - rewrite (finish_Ok self fs (map (node_references self fs) docs)).
    + rewrite flat_map_concat_map. reflexivity.
    + apply for_each_total. apply Forall_forall. intros d Hd.
      apply elem_of_elements in Hd. destruct (Hart d Hd) as (mdast & Hw & Hast).
      by eapply get_written_target_references_ast.
  - apply NoDup_elements.
  - intros d. apply elem_of_elements.
Qed.

(** A missing or unreadable artifact is fatal for [finish]. *)
Lemma finish_unreadable_artifact (self : Builder) (fs : Files) (d : string) :
  d ∈ found_docs (env self) ->
  (forall doc, fs !! MySTXRefBuilder._get_target_path self d <> Some (JsonFile doc)) ->
  exists e, MySTXRefBuilder.finish self fs = Raise e.
Proof.
  intros Hd Hmissing. unfold MySTXRefBuilder.finish.
  destruct (for_each _ _) as [refs|e] eqn:Hloop; simpl; [|eauto].
  apply for_each_Ok in Hloop. apply elem_of_elements in Hd.
  apply list_elem_of_lookup in Hd as (i & Hi).
  destruct (Forall2_lookup_l _ _ _ _ _ Hloop Hi) as (ys & _ & Hys).
  unfold MySTXRefBuilder._get_written_target_references, json_load in Hys.
  destruct (fs !! _) as [[contents|doc]|] eqn:Hfile; try discriminate.
  by destruct (Hmissing doc).
Qed.

(** C5, as the code has it. The manifest written by [finish] is a JSON
    object with exactly the keys [version] (the AST schema version, "1"),
    [myst] (the version of the downstream tool, "1.36.0") and
    [references], in this order. *)
Theorem C5_manifest_keys (self : Builder) (fs fs' : Files) :
  MySTXRefBuilder.finish self fs = Ok fs' ->
  exists references,
    fs' !! MySTXRefBuilder.manifest_path self =
      Some (JsonFile (JObj [("version", JStr "1");
                            ("myst", JStr "1.36.0");
                            ("references", JArr references)])) /\
    keys (JObj [("version", JStr "1");
                ("myst", JStr "1.36.0");
                ("references", JArr references)]) = ["version"; "myst"; "references"].
Proof.
  unfold MySTXRefBuilder.finish.
  destruct (for_each _ _) as [refs|e]; simpl; [|discriminate].
  intros Heq. inversion Heq; subst. eexists. split; [|done].
  unfold json_dump. by rewrite lookup_insert_eq.
Qed.

End Manifest.

Lemma C10_witness :
  exists identifier kind,
    JObj [("identifier", JStr "eq-1"); ("kind", JStr "math:inline");
          ("data", JStr "out/content/guide.json"); ("url", JStr "/guide")] =
    JObj [("identifier", identifier);
          ("kind", kind);
          ("data", JStr (MySTXRefBuilder._get_target_path (H := Sample.externals)
                           Sample.builder "guide"));
          ("url", JStr ("/" ++ MySTXRefBuilder._slugify (H := Sample.externals) "guide"))].
Proof.
  apply (C10_node_reference_url_and_data (H := Sample.externals)
           Sample.builder Sample.written "guide"
           [JObj [("identifier", JStr "eq-1"); ("kind", JStr "math:inline");
                  ("data", JStr "out/content/guide.json"); ("url", JStr "/guide")]]).
  - vm_compute. reflexivity.
  - apply list_elem_of_singleton. reflexivity.
Defined.

Lemma C3_witness :
  let docs := elements (found_docs (env Sample.builder)) in
  MySTXRefBuilder.finish (H := Sample.externals) Sample.builder Sample.written =
  Ok (<[MySTXRefBuilder.manifest_path Sample.builder :=
          JsonFile
            (JObj [("version", JStr "1");
                   ("myst", JStr "1.36.0");
                   ("references",
                     JArr (map (fun d =>
                                  JObj [("kind", JStr "page");
                                        ("url",
                                          JStr ("/" ++ MySTXRefBuilder._slugify
                                                         (H := Sample.externals) d));
                                        ("data",
                                          JStr (MySTXRefBuilder._get_target_path
                                                  (H := Sample.externals)
                                                  Sample.builder d))])
                               docs ++
                           flat_map (node_references (H := Sample.externals)
                                       Sample.builder Sample.written) docs))])]>
        Sample.written)
  /\ NoDup docs
  /\ (forall d, d ∈ docs <-> d ∈ found_docs (env Sample.builder)).
Proof.
  apply (C3_finish_references (H := Sample.externals) Sample.builder Sample.written).
  intros d Hd. simpl in Hd. set_unfold in Hd. destruct Hd as [[-> | ->] | ->].
  - eexists. split; [vm_compute; reflexivity|]. vm_compute. repeat constructor.
  - eexists. split; [vm_compute; reflexivity|]. vm_compute. repeat constructor.
  - eexists. split; [vm_compute; reflexivity|]. vm_compute. repeat constructor.
Defined.

(** C5. On the sample corpus the manifest has the key [myst] and no key
    [toolVersion]. *)
Lemma C5_counterexample :
  exists (fs' : Files) (manifest : json),
    MySTXRefBuilder.finish (H := Sample.externals) Sample.builder Sample.written = Ok fs' /\
    fs' !! MySTXRefBuilder.manifest_path Sample.builder = Some (JsonFile manifest) /\
    keys manifest = ["version"; "myst"; "references"] /\
    keys manifest <> ["version"; "toolVersion"; "references"] /\
    "toolVersion" ∉ keys manifest.
Proof.
  eexists _, _. split; [vm_compute; reflexivity|].
  split; [vm_compute; reflexivity|].
  split; [reflexivity|]. split; [discriminate|].
  simpl. intros Hin.
  repeat (apply elem_of_cons in Hin as [Hin|Hin]; [discriminate|]).
  inversion Hin.
Qed.

Lemma C5_witness :
  exists references,
    (<[MySTXRefBuilder.manifest_path Sample.empty_builder :=
         JsonFile (MySTXRefBuilder.xref [])]> (∅ : Files))
      !! MySTXRefBuilder.manifest_path Sample.empty_builder =
      Some (JsonFile (JObj [("version", JStr "1");
                            ("myst", JStr "1.36.0");
                            ("references", JArr references)])) /\
    keys (JObj [("version", JStr "1");
                ("myst", JStr "1.36.0");
                ("references", JArr references)]) = ["version"; "myst"; "references"].
Proof.
  apply (C5_manifest_keys (H := Sample.externals) Sample.empty_builder ∅).
  reflexivity.
Defined.

(** ** The breadth-first walk *)

Section Walk.

(** Induction on JSON values, with the hypothesis available for the
    items of an array and the values of an object. *)
Lemma json_nested_ind (P : json -> Prop) :
  P JNull ->
  (forall b, P (JBool b)) ->
  (forall z, P (JInt z)) ->
  (forall q, P (JFloat q)) ->
  (forall s, P (JStr s)) ->
  (forall items, Forall P items -> P (JArr items)) ->
  (forall members, Forall (fun kv => P (snd kv)) members -> P (JObj members)) ->
  forall t, P t.
Proof.
  intros Hnull Hbool Hint Hfloat Hstr Harr Hobj.
  fix IH 1. intros [| b | z | q | s | items | members].
  - exact Hnull.
  - apply Hbool.
  - apply Hint.
  - apply Hfloat.
  - apply Hstr.
  - apply Harr. induction items as [|x items IHitems]; constructor; [apply IH | exact IHitems].
  - apply Hobj. induction members as [|[k v] members IHm]; constructor;
      [apply IH | exact IHm].
Qed.

Lemma size_pos (t : json) : 1 <= Utils.size t.
Proof. destruct t; simpl; lia. Qed.

Lemma weight_app (q1 q2 : list json) : weight (q1 ++ q2) = weight q1 + weight q2.
Proof. unfold weight. by rewrite map_app, list_sum_app. Qed.

Lemma size_dict_lookup (k : string) (members : list (string * json)) (v : json) :
  dict_lookup k members = Some v ->
  Utils.size v <= list_sum (map (fun kv => match kv with (_, v) => Utils.size v end) members).
Proof.
  induction members as [|[k' v'] members IH]; simpl; [discriminate|].
  destruct (String.eqb k' k).
  - intros Heq. inversion Heq; subst. lia.
  - intros Hl. apply IH in Hl. lia.
Qed.

(** A node is strictly bigger than its children taken together. *)
Lemma weight_children (t : json) : S (weight (Utils.children_of t)) <= Utils.size t.
Proof.
  destruct t as [| | | | | |members]; simpl; try (unfold weight; simpl; lia).
  destruct (dict_lookup "children" members) as [v|] eqn:Hl;
    [|unfold weight; simpl; lia].
  apply size_dict_lookup in Hl.
  destruct v; simpl in *; unfold weight; simpl; lia.
Qed.

Lemma walk_queue_nil (fuel : nat) : Utils.walk_queue fuel [] = [].
Proof. by destruct fuel. Qed.

(** Once the fuel covers the weight of the queue, more fuel changes
    nothing: the loop has ended by itself. *)
Lemma walk_queue_enough (n m : nat) (queue : list json) :
  weight queue <= n -> n <= m ->
  Utils.walk_queue n queue = Utils.walk_queue m queue.
Proof.
  revert m queue. induction n as [|n IH]; intros m queue Hw Hnm.
  - destruct queue as [|x queue]; [by rewrite !walk_queue_nil|].
    unfold weight in Hw. simpl in Hw. pose proof (size_pos x). lia.
  - destruct queue as [|x queue]; [by rewrite !walk_queue_nil|].
    destruct m as [|m]; [lia|]. simpl. f_equal. apply IH; [|lia].
    rewrite weight_app. pose proof (weight_children x).
    unfold weight in *. simpl in Hw. lia.
Qed.

(** The walk of a tree ends by itself: it is the queue loop run with any
    fuel that covers the size of the tree. *)
Lemma breadth_first_walk_fuel (t : json) (fuel : nat) :
  Utils.size t <= fuel ->
  Utils.breadth_first_walk t = Utils.walk_queue fuel [t].
Proof.
  intros Hfuel. unfold Utils.breadth_first_walk.
  apply walk_queue_enough; [|done]. unfold weight. simpl. lia.
Qed.

(** The walk starts at the root. *)
Lemma breadth_first_walk_root (t : json) :
  exists rest, Utils.breadth_first_walk t = t :: rest.
Proof.
  unfold Utils.breadth_first_walk. pose proof (size_pos t).
  destruct (Utils.size t) as [|n]; [lia|]. simpl. eauto.
Qed.

(** A map over the nodes that commutes with taking the children
    commutes with the walk. *)
Lemma walk_queue_map (g : json -> json) (fuel : nat) (queue : list json) :
  (forall x, Utils.children_of (g x) = map g (Utils.children_of x)) ->
  Utils.walk_queue fuel (map g queue) = map g (Utils.walk_queue fuel queue).
Proof.
  intros Hg. revert queue. induction fuel as [|fuel IH]; intros queue; [done|].
  destruct queue as [|x queue]; [done|]. simpl. f_equal.
  rewrite <- IH. by rewrite map_app, Hg.
Qed.

Lemma breadth_first_walk_map (g : json -> json) (t : json) :
  (forall x, Utils.children_of (g x) = map g (Utils.children_of x)) ->
  Utils.breadth_first_walk (g t) = map g (Utils.breadth_first_walk t).
Proof.
  intros Hg.
  rewrite (breadth_first_walk_fuel (g t) (Utils.size (g t) `max` Utils.size t)) by lia.
  rewrite (breadth_first_walk_fuel t (Utils.size (g t) `max` Utils.size t)) by lia.
  by rewrite <- walk_queue_map.
Qed.

Lemma find_by_type_map (g : json -> json) (type_ : string) (t : json) :
  (forall x, Utils.children_of (g x) = map g (Utils.children_of x)) ->
  (forall x, Utils.has_type type_ (g x) = Utils.has_type type_ x) ->
  Utils.find_by_type type_ (g t) = map g (Utils.find_by_type type_ t).
Proof.
  intros Hg Hty. unfold Utils.find_by_type. rewrite breadth_first_walk_map by done.
  induction (Utils.breadth_first_walk t) as [|x l IH]; [done|].
  simpl. rewrite !filter_cons, Hty.
  destruct (decide (Utils.has_type type_ x = true)); simpl; by rewrite IH.
Qed.

End Walk.

(** ** Rewriting of internal links *)

Section Links.
Context `{Externals}.

Lemma dict_lookup_store_eq (k : string) (v : json) (members : list (string * json)) :
  dict_lookup k (dict_store k v members) = Some v.
Proof.
  induction members as [|[k' v'] members IH]; simpl.
  - by rewrite String.eqb_refl.
  - destruct (String.eqb k' k) eqn:Hk; simpl.
    + by rewrite String.eqb_refl.
    + by rewrite Hk.
Qed.

Lemma dict_lookup_store_ne (k k' : string) (v : json) (members : list (string * json)) :
  k <> k' -> dict_lookup k' (dict_store k v members) = dict_lookup k' members.
Proof.
  intros Hne. induction members as [|[k0 v0] members IH]; simpl.
  - by apply String.eqb_neq in Hne as ->.
  - destruct (String.eqb k0 k) eqn:Hk; simpl.
    + apply String.eqb_eq in Hk as ->. by apply String.eqb_neq in Hne as ->.
    + by rewrite IH.
Qed.

Lemma dict_lookup_update_children_ne (g : json -> json) (k : string)
    (members : list (string * json)) :
  k <> "children" ->
  dict_lookup k (Utils.update_children g members) = dict_lookup k members.
Proof.
  intros Hne. induction members as [|[k0 v0] members IH]; simpl; [done|].
  destruct (String.eqb k0 "children") eqn:Hk; simpl.
  - apply String.eqb_eq in Hk as ->.
    assert (String.eqb "children" k = false) as -> by (apply String.eqb_neq; congruence).
    done.
  - by rewrite IH.
Qed.

Lemma children_of_update_children (g : json -> json) (members : list (string * json)) :
  Utils.children_of (JObj (Utils.update_children g members)) =
  map g (Utils.children_of (JObj members)).
Proof.
  simpl. induction members as [|[k0 v0] members IH]; simpl; [done|].
  destruct (String.eqb k0 "children") eqn:Hk; simpl.
  - rewrite Hk. by destruct v0.
  - by rewrite Hk.
Qed.

Lemma rewrite_link_unfold (docnames : gset string) (members : list (string * json)) :
  MySTBuilderMixin.rewrite_link docnames (JObj members) =
  match dict_lookup "url" members with
  | None => Raise (KeyError "url")
  | Some url =>
      match Url.urlparse url with
      | Raise e => Raise e
      | Ok p =>
          if eligible docnames p
          then Ok (JObj (dict_store "url" (JStr (rewritten_url p)) members))
          else Ok (JObj members)
      end
  end.
Proof.
  unfold MySTBuilderMixin.rewrite_link, eligible, rewritten_url. simpl.
  destruct (dict_lookup "url" members) as [url|]; simpl; [|done].
  destruct (Url.urlparse url) as [p|e]; simpl; [|done].
  destruct (String.eqb (Url.scheme p) ""); simpl; [|done].
  destruct (String.eqb (Url.path p) ""); simpl; [done|].
  by destruct (bool_decide (Url.path p ∈ docnames)).
Qed.

(** The loop body touches nothing but the [url] field of an object. *)
Lemma relink_fields (docnames : gset string) (members : list (string * json)) :
  exists members',
    MySTBuilderMixin.relink docnames (JObj members) = JObj members' /\
    (forall k, k <> "url" -> dict_lookup k members' = dict_lookup k members) /\
    (members' = members \/
     exists url p, dict_lookup "url" members = Some url /\ Url.urlparse url = Ok p /\
                   eligible docnames p = true /\
                   members' = dict_store "url" (JStr (rewritten_url p)) members).
Proof.
  unfold MySTBuilderMixin.relink. rewrite rewrite_link_unfold.
  destruct (dict_lookup "url" members) as [url|] eqn:Hurl; [|by eauto].
  destruct (Url.urlparse url) as [p|e] eqn:Hp; [|by eauto].
  destruct (eligible docnames p) eqn:He; [|by eauto].
  eexists. split; [done|]. split.
  - intros k Hk. by apply dict_lookup_store_ne.
  - right. eauto 10.
Qed.


Lemma relink_tree_obj (docnames : gset string) (members : list (string * json)) :
  relink_tree docnames (JObj members) =
  if Utils.has_type "link" (JObj members)
  then MySTBuilderMixin.relink docnames
         (JObj (Utils.update_children (relink_tree docnames) members))
  else JObj (Utils.update_children (relink_tree docnames) members).
Proof. reflexivity. Qed.

Lemma children_of_relink_tree (docnames : gset string) (t : json) :
  Utils.children_of (relink_tree docnames t) =
  map (relink_tree docnames) (Utils.children_of t).
Proof.
  destruct t as [| | | | | |members]; try done.
  rewrite relink_tree_obj.
  assert (Utils.children_of
            (MySTBuilderMixin.relink docnames (JObj (Utils.update_children (relink_tree docnames) members))) =
          Utils.children_of (JObj (Utils.update_children (relink_tree docnames) members)))
    as Hrelink.
  { destruct (relink_fields docnames (Utils.update_children (relink_tree docnames) members))
      as (members' & -> & Hsame & _).
    simpl. by rewrite Hsame. }
  destruct (Utils.has_type "link" (JObj members)).
  - rewrite Hrelink. apply children_of_update_children.
  - apply children_of_update_children.
Qed.

Lemma has_type_relink_tree (docnames : gset string) (type_ : string) (t : json) :
  Utils.has_type type_ (relink_tree docnames t) = Utils.has_type type_ t.
Proof.
  destruct t as [| | | | | |members]; try done.
  rewrite relink_tree_obj.
  assert (Utils.has_type type_ (JObj (Utils.update_children (relink_tree docnames) members))
          = Utils.has_type type_ (JObj members)) as Hchildren.
  { simpl. by rewrite dict_lookup_update_children_ne. }
  destruct (Utils.has_type "link" (JObj members)); [|done].
  destruct (relink_fields docnames (Utils.update_children (relink_tree docnames) members))
    as (members' & -> & Hsame & _).
  rewrite <- Hchildren. simpl. by rewrite Hsame.
Qed.

(** The links of the tree after the loop are the links of the tree
    before it, each after the loop, in the same order. *)
Lemma find_by_type_relink_tree (docnames : gset string) (type_ : string) (t : json) :
  Utils.find_by_type type_ (relink_tree docnames t) =
  map (relink_tree docnames) (Utils.find_by_type type_ t).
Proof.
  apply find_by_type_map.
  - apply children_of_relink_tree.
  - apply has_type_relink_tree.
Qed.

Lemma find_by_type_has_type (type_ : string) (t x : json) :
  x ∈ Utils.find_by_type type_ t -> Utils.has_type type_ x = true.
Proof. unfold Utils.find_by_type. rewrite list_elem_of_filter. by intros [? _]. Qed.

Lemma transform_internal_links_Ok (self : Builder) (node node' : json) :
  MySTBuilderMixin.transform_internal_links self node = Ok node' ->
  node' = relink_tree (found_docs (env self)) node /\
  Forall (fun link => exists link1,
            MySTBuilderMixin.rewrite_link (found_docs (env self)) link = Ok link1)
         (Utils.find_by_type "link" node).
Proof.
  unfold MySTBuilderMixin.transform_internal_links.
  destruct (for_each _ _) as [ys|e] eqn:Hloop; simpl; [|discriminate].
  intros Heq. inversion Heq; subst. split; [done|].
  apply for_each_Ok in Hloop. apply Forall_forall. intros link Hlink.
  apply list_elem_of_lookup in Hlink as (i & Hi).
  destruct (Forall2_lookup_l _ _ _ _ _ Hloop Hi) as (y & _ & Hy). eauto.
Qed.

(** The loop does not raise when the URL of every link can be read and
    parsed. *)
Lemma transform_internal_links_total (self : Builder) (node : json) :
  Forall (fun link => exists url p,
            getitem link "url" = Ok url /\ Url.urlparse url = Ok p)
         (Utils.find_by_type "link" node) ->
  MySTBuilderMixin.transform_internal_links self node =
  Ok (relink_tree (found_docs (env self)) node).
Proof.
  intros Hlinks. unfold MySTBuilderMixin.transform_internal_links.
  rewrite (for_each_total _ (MySTBuilderMixin.relink (found_docs (env self)))); [done|].
  eapply Forall_impl; [exact Hlinks|]. intros link (url & p & Hurl & Hp).
  unfold MySTBuilderMixin.relink.
  destruct link as [| | | | | |members]; try discriminate.
  rewrite rewrite_link_unfold. simpl in Hurl.
  destruct (dict_lookup "url" members) as [url'|]; [|discriminate].
  inversion Hurl; subst. rewrite Hp. by destruct (eligible _ p).
Qed.

(** What the loop does to one link of the tree. *)
Lemma relink_tree_link (docnames : gset string) (link link1 : json) :
  Utils.has_type "link" link = true ->
  MySTBuilderMixin.rewrite_link docnames link = Ok link1 ->
  exists url p,
    getitem link "url" = Ok url /\ Url.urlparse url = Ok p /\
    getitem (relink_tree docnames link) "url" =
      Ok (if eligible docnames p then JStr (rewritten_url p) else url) /\
    (forall k, k <> "url" -> k <> "children" ->
               getitem (relink_tree docnames link) k = getitem link k).
Proof.
  intros Hty Hrw. destruct link as [| | | | | |members]; try discriminate.
  rewrite rewrite_link_unfold in Hrw.
  destruct (dict_lookup "url" members) as [url|] eqn:Hurl; [|discriminate].
  destruct (Url.urlparse url) as [p|e] eqn:Hp; [|discriminate].
  exists url, p. split; [by simpl; rewrite Hurl|]. split; [done|].
  rewrite relink_tree_obj, Hty. unfold MySTBuilderMixin.relink.
  rewrite rewrite_link_unfold.
  rewrite dict_lookup_update_children_ne by discriminate.
  rewrite Hurl, Hp. destruct (eligible docnames p); simpl.
  - split.
    + by rewrite dict_lookup_store_eq.
    + intros k Hk Hk'. rewrite dict_lookup_store_ne by done.
      by rewrite dict_lookup_update_children_ne.
  - split.
    + by rewrite dict_lookup_update_children_ne, Hurl by discriminate.
    + intros k Hk Hk'. by rewrite dict_lookup_update_children_ne.
Qed.

Lemma eligible_true (docnames : gset string) (p : Url.ParseResult) :
  eligible docnames p = true <->
  Url.scheme p = "" /\ Url.path p <> "" /\ Url.path p ∈ docnames.
Proof.
  unfold eligible. rewrite !andb_true_iff, negb_true_iff, String.eqb_eq, String.eqb_neq.
  rewrite bool_decide_eq_true. tauto.
Qed.

(** C4. After [transform_internal_links], the links of the tree are the
    links it had, in the same order, and for each of them: when its URL
    has a scheme, an empty path or a path that is not a known document
    id, the URL is the one it had; otherwise the URL is put together
    from the scheme, network location, parameters, query and fragment it
    had and from its path followed by [".myst.json"]. No field of the
    link other than [url] (and the links below it) is changed. *)
Theorem C4_transform_internal_links_frame (self : Builder) (node node' : json) :
  MySTBuilderMixin.transform_internal_links self node = Ok node' ->
  Forall2
    (fun link link' =>
       exists url p,
         getitem link "url" = Ok url /\ Url.urlparse url = Ok p /\
         (Url.scheme p <> "" \/ Url.path p = "" \/ Url.path p ∉ found_docs (env self) ->
          getitem link' "url" = Ok url) /\
         (Url.scheme p = "" -> Url.path p <> "" -> Url.path p ∈ found_docs (env self) ->
          getitem link' "url" =
          Ok (JStr (Url.urlunparse
                      {| Url.scheme := Url.scheme p;
                         Url.netloc := Url.netloc p;
                         Url.path := Url.path p ++ ".myst.json";
                         Url.params := Url.params p;
                         Url.query := Url.query p;
                         Url.fragment := Url.fragment p |}))) /\
         (forall k, k <> "url" -> k <> "children" -> getitem link' k = getitem link k))
    (Utils.find_by_type "link" node) (Utils.find_by_type "link" node').
Proof.
  intros Hrun. apply transform_internal_links_Ok in Hrun as [-> Hlinks].
  rewrite find_by_type_relink_tree. apply Forall2_fmap_r, Forall2_same_length_lookup.
  split; [done|]. intros i link link' Hi Hi'.
  rewrite Hi in Hi'. inversion Hi'; subst link'. clear Hi'.
  assert (link ∈ Utils.find_by_type "link" node) as Hin
    by (apply list_elem_of_lookup; eauto).
  rewrite Forall_forall in Hlinks. destruct (Hlinks link Hin) as (link1 & Hrw).
  destruct (relink_tree_link _ link link1 (find_by_type_has_type _ _ _ Hin) Hrw)
    as (url & p & Hurl & Hp & Hnew & Hframe).
  exists url, p. split; [done|]. split; [done|]. split; [|split; [|done]].
  - intros Hskip. rewrite Hnew.
    destruct (eligible _ p) eqn:He; [|done].
    apply eligible_true in He as (Hs & Hp' & Hd).
    destruct Hskip as [Hskip | [Hskip | Hskip]]; by destruct Hskip.
  - intros Hs Hp' Hd. rewrite Hnew.
    assert (eligible (found_docs (env self)) p = true) as -> by by apply eligible_true.
    done.
Qed.

End Links.

(** ** Parsing the rewritten URL again *)

Section UrlFacts.
#[local] Arguments String.append !_ _ : simpl nomatch.

Section Searching.
Implicit Types (c : ascii) (p : ascii -> bool) (s a b : string) (i : nat).

Lemma length_app a b : String.length (a ++ b) = String.length a + String.length b.
Proof. induction a as [|x a IH]; simpl; [done|]. by rewrite IH. Qed.

Lemma app_assoc_str a b d : (a ++ b) ++ d = a ++ (b ++ d).
Proof. induction a as [|x a IH]; simpl; [done|]. by rewrite IH. Qed.

Lemma app_empty_r a : a ++ "" = a.
Proof. induction a as [|x a IH]; simpl; [done|]. by rewrite IH. Qed.

Lemma find_app c a b :
  Str.find c (a ++ b) =
  match Str.find c a with
  | Some i => Some i
  | None => Nat.add (String.length a) <$> Str.find c b
  end.
Proof.
  induction a as [|x a IH]; simpl.
  - by destruct (Str.find c b).
  - destruct (Ascii.eqb x c); [done|]. rewrite IH.
    destruct (Str.find c a); simpl; [done|]. by destruct (Str.find c b).
Qed.

Lemma find_lt c s i : Str.find c s = Some i -> i < String.length s.
Proof.
  revert i. induction s as [|x s IH]; intros i; simpl; [discriminate|].
  destruct (Ascii.eqb x c).
  - intros Heq. inversion Heq. lia.
  - destruct (Str.find c s) as [j|]; simpl; [|discriminate].
    intros Heq. inversion Heq. specialize (IH j eq_refl). lia.
Qed.

Lemma find_split c s i :
  Str.find c s = Some i ->
  s = Str.take i s ++ String c (Str.drop (S i) s) /\
  Str.find c (Str.take i s) = None /\
  String.length (Str.take i s) = i.
Proof.
  revert i. induction s as [|x s IH]; intros i; simpl; [discriminate|].
  destruct (Ascii.eqb x c) eqn:Hx.
  - intros Heq. inversion Heq; subst. apply Ascii.eqb_eq in Hx as ->.
    simpl. by destruct s.
  - destruct (Str.find c s) as [j|]; simpl; [|discriminate].
    intros Heq. inversion Heq; subst. destruct (IH j eq_refl) as (Hs & Hn & Hl).
    simpl. rewrite Hx, Hn. simpl. rewrite Hl. split; [|done].
    f_equal. exact Hs.
Qed.

Lemma take_app a b : Str.take (String.length a) (a ++ b) = a.
Proof. induction a as [|x a IH]; simpl; [by destruct b|]. by rewrite IH. Qed.

Lemma drop_app a b : Str.drop (String.length a) (a ++ b) = b.
Proof. induction a as [|x a IH]; simpl; [by destruct b|]. done. Qed.

Lemma take_app_le i a b : i <= String.length a -> Str.take i (a ++ b) = Str.take i a.
Proof.
  revert i. induction a as [|x a IH]; intros i Hi; simpl in *.
  - assert (i = 0) as -> by lia. by destruct b.
  - destruct i; [done|]. simpl. rewrite IH by lia. done.
Qed.

Lemma take_app_ge i a b :
  Str.take (String.length a + i) (a ++ b) = a ++ Str.take i b.
Proof. induction a as [|x a IH]; simpl; [done|]. by rewrite IH. Qed.

Lemma drop_app_ge i a b :
  Str.drop (String.length a + i) (a ++ b) = Str.drop i b.
Proof. induction a as [|x a IH]; simpl; done. Qed.

Lemma all_app p a b : Str.all p (a ++ b) = Str.all p a && Str.all p b.
Proof. induction a as [|x a IH]; simpl; [done|]. rewrite IH. by destruct (p x). Qed.

Lemma has_false c s : Str.has c s = false <-> Str.find c s = None.
Proof.
  unfold Str.has. destruct (Str.find c s); simpl; split; try done.
Qed.

Lemma has_true c s : Str.has c s = true <-> exists i, Str.find c s = Some i.
Proof.
  unfold Str.has. destruct (Str.find c s); simpl; split; eauto; try done.
  intros [? ?]; done.
Qed.

Lemma rfind_app c a b :
  Str.rfind c (a ++ b) =
  match Str.rfind c b with
  | Some i => Some (String.length a + i)
  | None => Str.rfind c a
  end.
Proof.
  induction a as [|x a IH]; simpl.
  - by destruct (Str.rfind c b).
  - rewrite IH. destruct (Str.rfind c b); [done|]. done.
Qed.

Lemma rfind_None c s : Str.rfind c s = None <-> Str.find c s = None.
Proof.
  induction s as [|x s IH]; simpl; [done|].
  destruct (Str.rfind c s), (Ascii.eqb x c), (Str.find c s); simpl; try done.
  - destruct IH as [_ IH]. by specialize (IH eq_refl).
  - destruct IH as [IH _]. by specialize (IH eq_refl).
Qed.

Lemma rfind_split c s i :
  Str.rfind c s = Some i ->
  s = Str.take i s ++ String c (Str.drop (S i) s) /\
  Str.find c (Str.drop (S i) s) = None /\
  String.length (Str.take i s) = i.
Proof.
  revert i. induction s as [|x s IH]; intros i; simpl; [discriminate|].
  destruct (Str.rfind c s) as [j|] eqn:Hr.
  - intros Heq. inversion Heq; subst. destruct (IH j eq_refl) as (Hs & Hn & Hl).
    simpl. rewrite Hl. split; [|done]. f_equal. exact Hs.
  - destruct (Ascii.eqb x c) eqn:Hx; [|discriminate].
    intros Heq. inversion Heq; subst. apply Ascii.eqb_eq in Hx as ->.
    simpl. split; [by destruct s|]. split; [|done].
    apply rfind_None in Hr. by destruct s.
Qed.

Lemma remove_id p s : Str.all (fun x => negb (p x)) s = true -> Str.remove p s = s.
Proof.
  induction s as [|x s IH]; simpl; [done|].
  destruct (p x); simpl; [done|]. intros Hs. by rewrite IH.
Qed.

Lemma all_remove p s : Str.all (fun x => negb (p x)) (Str.remove p s) = true.
Proof.
  induction s as [|x s IH]; simpl; [done|].
  destruct (p x) eqn:Hp; simpl; [done|]. by rewrite Hp.
Qed.

Lemma all_take p i s : Str.all p s = true -> Str.all p (Str.take i s) = true.
Proof.
  revert i. induction s as [|x s IH]; intros i; simpl; [by destruct i|].
  destruct i; [done|]. simpl. destruct (p x); [|done]. simpl. apply IH.
Qed.

Lemma all_drop p i s : Str.all p s = true -> Str.all p (Str.drop i s) = true.
Proof.
  revert i. induction s as [|x s IH]; intros i; simpl; [by destruct i|].
  destruct i; [done|]. simpl. destruct (p x); [|done]. simpl. apply IH.
Qed.

End Searching.

Section Splitting.
Implicit Types (c : ascii) (p : ascii -> bool) (s a b : string) (i : nat).

Lemma find_drop_None c i s : Str.find c s = None -> Str.find c (Str.drop i s) = None.
Proof.
  revert i. induction s as [|x s IH]; intros i; simpl; [by destruct i|].
  destruct (Ascii.eqb x c) eqn:Hx; [discriminate|].
  destruct (Str.find c s) eqn:Hf; simpl; [discriminate|]. intros _.
  destruct i; simpl; [by rewrite Hx, Hf|]. by apply IH.
Qed.

Lemma find_take_None c i s : Str.find c s = None -> Str.find c (Str.take i s) = None.
Proof.
  revert i. induction s as [|x s IH]; intros i; simpl; [by destruct i|].
  destruct (Ascii.eqb x c) eqn:Hx; [discriminate|].
  destruct (Str.find c s) eqn:Hf; simpl; [discriminate|]. intros _.
  destruct i; simpl; [done|]. rewrite Hx. by rewrite IH.
Qed.

Lemma find_app_None c a b :
  Str.find c (a ++ b) = None <-> Str.find c a = None /\ Str.find c b = None.
Proof.
  rewrite find_app. destruct (Str.find c a); simpl.
  - split; [done | by intros [? _]].
  - destruct (Str.find c b); simpl; split; try done. by intros [_ ?].
Qed.

Lemma find_cons_ne c x s : x <> c -> Str.find c (String x s) = S <$> Str.find c s.
Proof. intros Hne. simpl. by apply Ascii.eqb_neq in Hne as ->. Qed.

Lemma find_cons_eq c s : Str.find c (String c s) = Some 0.
Proof. simpl. by rewrite Ascii.eqb_refl. Qed.

Lemma drop_succ_app a x b : Str.drop (S (String.length a)) (a ++ String x b) = b.
Proof. induction a as [|y a IH]; simpl; [done|]. exact IH. Qed.

Lemma split_once_app c a r :
  Str.find c a = None -> Str.split_once c (a ++ String c r) = Some (a, r).
Proof.
  intros Ha. unfold Str.split_once. rewrite find_app, Ha, find_cons_eq. simpl.
  rewrite Nat.add_0_r, take_app. do 2 f_equal. apply drop_succ_app.
Qed.

Lemma split_once_None c s : Str.find c s = None -> Str.split_once c s = None.
Proof. intros Hs. unfold Str.split_once. by rewrite Hs. Qed.

Lemma split_at_app c a r :
  Str.find c a = None -> Url.split_at c (a ++ String c r) = (a, r).
Proof. intros Ha. unfold Url.split_at. by rewrite split_once_app. Qed.

Lemma split_at_absent c s : Str.find c s = None -> Url.split_at c s = (s, "").
Proof. intros Hs. unfold Url.split_at. by rewrite split_once_None. Qed.

Lemma split_at_spec c s u r :
  Url.split_at c s = (u, r) ->
  Str.find c u = None /\ (s = u /\ r = "" \/ s = u ++ String c r).
Proof.
  unfold Url.split_at, Str.split_once.
  destruct (Str.find c s) as [i|] eqn:Hf; simpl.
  - intros Heq. inversion Heq; subst. destruct (find_split _ _ _ Hf) as (Hs & Hn & _).
    split; [done|]. by right.
  - intros Heq. inversion Heq; subst. split; [done|]. by left.
Qed.

Lemma basename_app_clear a b :
  Str.find "/" b = None -> OsPath.basename (a ++ b) = OsPath.basename a ++ b.
Proof.
  intros Hb. unfold OsPath.basename. rewrite rfind_app.
  apply rfind_None in Hb. rewrite Hb.
  destruct (Str.rfind "/" a) as [r|] eqn:Hr; [|done].
  destruct (rfind_split _ _ _ Hr) as (Ha & _ & Hl).
  rewrite Ha at 1. rewrite app_assoc_str. rewrite <- Hl at 1.
  change (String "/" (Str.drop (S r) a) ++ b) with (String "/" (Str.drop (S r) a ++ b)).
  by rewrite drop_succ_app.
Qed.

Lemma basename_slash a b :
  Str.find "/" b = None -> OsPath.basename (a ++ String "/" b) = b.
Proof.
  intros Hb. unfold OsPath.basename. rewrite rfind_app. simpl.
  apply rfind_None in Hb. rewrite Hb. simpl. rewrite Nat.add_0_r.
  apply drop_succ_app.
Qed.

Lemma basename_no_slash s : Str.find "/" s = None -> OsPath.basename s = s.
Proof. intros Hs. unfold OsPath.basename. apply rfind_None in Hs. by rewrite Hs. Qed.

Lemma basename_clear s : Str.find "/" (OsPath.basename s) = None.
Proof.
  unfold OsPath.basename. destruct (Str.rfind "/" s) as [r|] eqn:Hr.
  - by destruct (rfind_split _ _ _ Hr) as (_ & Hn & _).
  - by apply rfind_None.
Qed.

End Splitting.

Section Params.
Implicit Types (c : ascii) (s a b url path params : string) (i : nat).

Lemma find_from_le c s r :
  r <= String.length s -> Str.find_from c s r = Nat.add r <$> Str.find c (Str.drop r s).
Proof.
  intros Hr. unfold Str.find_from.
  by destruct (Nat.leb_spec r (String.length s)); [|lia].
Qed.

Lemma in_list_empty_uses_params : Url.in_list "" Url.uses_params = true.
Proof. reflexivity. Qed.

(** A string with a slash is what comes before its last slash, the slash
    and its basename. *)
Lemma basename_split s r :
  Str.rfind "/" s = Some r ->
  s = Str.take r s ++ String "/" (OsPath.basename s) /\ String.length (Str.take r s) = r.
Proof.
  intros Hr. destruct (rfind_split _ _ _ Hr) as (Hs & _ & Hl).
  unfold OsPath.basename. rewrite Hr. done.
Qed.

Lemma drop_at_rfind_app s r x :
  Str.rfind "/" s = Some r ->
  Str.drop r (s ++ x) = String "/" (OsPath.basename s ++ x).
Proof.
  intros Hr. destruct (basename_split _ _ Hr) as (Hs & Hl).
  remember (Str.take r s) as A. remember (OsPath.basename s) as B.
  rewrite Hs, <- Hl, app_assoc_str. apply drop_app.
Qed.

Lemma drop_at_rfind s r :
  Str.rfind "/" s = Some r -> Str.drop r s = String "/" (OsPath.basename s).
Proof.
  intros Hr. pose proof (drop_at_rfind_app s r "" Hr) as Hd.
  by rewrite !app_empty_r in Hd.
Qed.

Lemma rfind_le c s r : Str.rfind c s = Some r -> r < String.length s.
Proof.
  intros Hr. destruct (rfind_split _ _ _ Hr) as (Hs & _ & Hl).
  rewrite Hs, length_app. simpl. lia.
Qed.

Lemma split_params_join path params :
  Str.find ";" (OsPath.basename path) = None ->
  Str.find "/" params = None ->
  Url.split_params ""
    (if negb (String.eqb params "") then path ++ ";" ++ params else path) =
  (path, params).
Proof.
  intros Hclear Hparams. unfold Url.split_params. rewrite in_list_empty_uses_params.
  simpl andb. destruct (String.eqb_spec params "") as [->|Hne]; simpl negb; cbv iota.
  - destruct (Str.has ";" path) eqn:Hsemi; [|done].
    unfold Url._splitparams. destruct (Str.has "/" path) eqn:Hslash.
    + apply has_true in Hslash as (j & Hj).
      destruct (Str.rfind "/" path) as [r|] eqn:Hr;
        [|apply rfind_None in Hr; congruence].
      simpl default. pose proof (rfind_le _ _ _ Hr).
      rewrite find_from_le by lia. rewrite (drop_at_rfind _ _ Hr).
      rewrite find_cons_ne by done. rewrite Hclear. done.
    + apply has_false in Hslash. rewrite basename_no_slash in Hclear by done.
      apply has_true in Hsemi as (j & Hj). congruence.
  - change (path ++ ";" ++ params) with (path ++ String ";" params).
    assert (Str.has ";" (path ++ String ";" params) = true) as ->.
    { apply has_true. rewrite find_app, find_cons_eq.
      destruct (Str.find ";" path); simpl; eauto. }
    unfold Url._splitparams.
    destruct (Str.has "/" (path ++ String ";" params)) eqn:Hslash.
    + apply has_true in Hslash as (j & Hj).
      destruct (Str.rfind "/" path) as [r|] eqn:Hr.
      * assert (Str.rfind "/" (path ++ String ";" params) = Some r) as ->.
        { rewrite rfind_app. simpl. apply rfind_None in Hparams. by rewrite Hparams. }
        destruct (basename_split _ _ Hr) as (Hpath & Hl). simpl default.
        pose proof (rfind_le _ _ _ Hr).
        rewrite find_from_le by (rewrite length_app; lia).
        rewrite (drop_at_rfind_app _ _ _ Hr).
        rewrite find_cons_ne by done. rewrite find_app, Hclear. simpl.
        assert (r + S (String.length (OsPath.basename path) + 0) = String.length path)
          as Hlen.
        { rewrite Hpath at 2. rewrite length_app. simpl. lia. }
        rewrite Hlen. f_equal; [apply take_app | apply drop_succ_app].
      * apply rfind_None in Hr. rewrite find_app, Hr in Hj. simpl in Hj.
        rewrite Hparams in Hj. discriminate.
    + apply has_false in Hslash. apply find_app_None in Hslash as [Hpath _].
      rewrite basename_no_slash in Hclear by done.
      rewrite find_app, Hclear. simpl. rewrite Nat.add_0_r.
      f_equal; [apply take_app | apply drop_succ_app].
Qed.

Lemma split_params_spec url path params :
  Url.split_params "" url = (path, params) ->
  (url = path /\ params = "" \/ url = path ++ String ";" params) /\
  Str.find "/" params = None /\
  Str.find ";" (OsPath.basename path) = None.
Proof.
  unfold Url.split_params. rewrite in_list_empty_uses_params. simpl andb.
  destruct (Str.has ";" url) eqn:Hsemi.
  - unfold Url._splitparams. destruct (Str.has "/" url) eqn:Hslash.
    + apply has_true in Hslash as (j & Hj).
      destruct (Str.rfind "/" url) as [r|] eqn:Hr;
        [|apply rfind_None in Hr; congruence].
      destruct (basename_split _ _ Hr) as (Hurl & Hl). simpl default.
      pose proof (rfind_le _ _ _ Hr).
      rewrite find_from_le by lia. rewrite (drop_at_rfind _ _ Hr).
      rewrite find_cons_ne by done.
      destruct (Str.find ";" (OsPath.basename url)) as [k|] eqn:Hk; simpl.
      * intros Heq. inversion Heq; subst path params. clear Heq.
        destruct (find_split _ _ _ Hk) as (Hb & Hn & Hlk).
        set (A := Str.take r url) in *. set (B1 := Str.take k (OsPath.basename url)) in *.
        set (B2 := Str.drop (S k) (OsPath.basename url)) in *.
        assert (url = (A ++ String "/" B1) ++ String ";" B2) as Hdec.
        { rewrite Hurl at 1. rewrite Hb at 1. by rewrite app_assoc_str. }
        assert (r + S k = String.length (A ++ String "/" B1)) as Hlen.
        { rewrite length_app. simpl. lia. }
        rewrite Hlen.
        assert (Str.take (String.length (A ++ String "/" B1)) url = A ++ String "/" B1)
          as -> by (rewrite Hdec at 1; apply take_app).
        assert (Str.drop (S (String.length (A ++ String "/" B1))) url = B2)
          as Hdrop by (rewrite Hdec at 1; apply drop_succ_app).
        change (match url with
                | "" => url
                | String _ s' => Str.drop (String.length (A ++ String "/" B1)) s'
                end) with (Str.drop (S (String.length (A ++ String "/" B1))) url).
        rewrite Hdrop.
        split; [by right|]. split.
        -- pose proof (basename_clear url) as Hc. rewrite Hb in Hc.
           apply find_app_None in Hc as [_ Hc]. rewrite find_cons_ne in Hc by done.
           by destruct (Str.find "/" B2).
        -- rewrite basename_slash; [done|].
           pose proof (basename_clear url) as Hc. rewrite Hb in Hc.
           by apply find_app_None in Hc as [Hc _].
      * intros Heq. inversion Heq; subst. split; [by left|]. split; [done|]. done.
    + apply has_true in Hsemi as (k & Hk). rewrite Hk.
      intros Heq. inversion Heq; subst path params. clear Heq.
      destruct (find_split _ _ _ Hk) as (Hb & Hn & Hlk).
      apply has_false in Hslash.
      split; [by right|]. split.
      * exact (find_drop_None _ (S k) _ Hslash).
      * rewrite basename_no_slash; [done|]. by apply find_take_None.
  - intros Heq. inversion Heq; subst. apply has_false in Hsemi.
    split; [by left|]. split; [done|].
    unfold OsPath.basename. destruct (Str.rfind "/" path); [|done].
    by apply find_drop_None.
Qed.

End Params.

Section Components.
Implicit Types (c : ascii) (s a b url path params query fragment : string) (i : nat).

Lemma assemble_unfold path params query fragment :
  assemble path params query fragment =
  ((if negb (String.eqb params "") then path ++ String ";" params else path)
     ++ (if negb (String.eqb query "") then String "?" query else ""))
    ++ (if negb (String.eqb fragment "") then String "#" fragment else "").
Proof.
  unfold assemble, Url.urlunparse, Url.urlunsplit. simpl.
  destruct (String.eqb query ""), (String.eqb fragment ""); simpl;
    by rewrite ?app_empty_r.
Qed.

Lemma components_assemble path params query fragment :
  plain_components path params query fragment ->
  components (assemble path params query fragment) = (path, params, query, fragment).
Proof.
  intros [Hp1 Hp2 Hp3 Ha1 Ha2 Ha3 Hq1]. rewrite assemble_unfold. unfold components.
  set (W := if negb (String.eqb params "") then path ++ String ";" params else path).
  assert (Str.find "#" W = None /\ Str.find "?" W = None) as [HW1 HW2].
  { unfold W. destruct (String.eqb params ""); simpl; [done|].
    split; apply find_app_None; (split; [done|]); by rewrite find_cons_ne, ?Ha1, ?Ha2. }
  set (Q := W ++ (if negb (String.eqb query "") then String "?" query else "")).
  assert (Str.find "#" Q = None) as HQ.
  { unfold Q. apply find_app_None. split; [done|].
    destruct (String.eqb query ""); simpl; [done|]. by rewrite Ascii.eqb_refl || rewrite Hq1. }
  assert (Url.split_at "#" (Q ++ (if negb (String.eqb fragment "")
                                  then String "#" fragment else "")) = (Q, fragment)) as ->.
  { destruct (String.eqb_spec fragment "") as [->|Hne]; simpl.
    - rewrite app_empty_r. by apply split_at_absent.
    - by apply split_at_app. }
  assert (Url.split_at "?" Q = (W, query)) as ->.
  { unfold Q. destruct (String.eqb_spec query "") as [->|Hne]; simpl.
    - rewrite app_empty_r. by apply split_at_absent.
    - by apply split_at_app. }
  unfold W. change (path ++ String ";" params) with (path ++ ";" ++ params).
  by rewrite split_params_join.
Qed.

Lemma components_spec url path params query fragment :
  components url = (path, params, query, fragment) ->
  plain_components path params query fragment /\
  (exists x, url = path ++ x /\ delimited x = true) /\
  (forall q, Str.all q url = true ->
             Str.all q path = true /\ Str.all q params = true /\
             Str.all q query = true /\ Str.all q fragment = true).
Proof.
  unfold components.
  destruct (Url.split_at "#" url) as [A fragment'] eqn:HA.
  destruct (Url.split_at "?" A) as [B query'] eqn:HB.
  destruct (Url.split_params "" B) as [path' params'] eqn:HP.
  intros Heq. inversion Heq; subst. clear Heq.
  apply split_at_spec in HA as [HA1 HA]. apply split_at_spec in HB as [HB1 HB].
  apply split_params_spec in HP as (HP & HP1 & HP2).
  assert (Str.find "#" B = None /\ Str.find "#" query = None) as [HB2 Hq].
  { destruct HB as [[-> ->] | ->]; [done|].
    apply find_app_None in HA1 as [? HA1]. split; [done|].
    rewrite find_cons_ne in HA1 by done. by destruct (Str.find "#" query). }
  assert (Str.find "#" path = None /\ Str.find "#" params = None /\
          Str.find "?" path = None /\ Str.find "?" params = None) as (? & ? & ? & ?).
  { destruct HP as [[-> ->] | ->]; [done|].
    apply find_app_None in HB1 as [? HB1]. apply find_app_None in HB2 as [? HB2].
    rewrite find_cons_ne in HB1, HB2 by done.
    destruct (Str.find "#" params), (Str.find "?" params); done. }
  split; [by constructor|]. split.
  - assert (exists x, B = path ++ x /\ delimited x = true) as (x1 & -> & Hx1).
    { destruct HP as [[-> ->] | ->]; [exists ""; by rewrite app_empty_r | by eexists]. }
    assert (exists x, A = path ++ x /\ delimited x = true) as (x2 & -> & Hx2).
    { destruct HB as [[-> ->] | ->]; [by eexists|].
      exists (x1 ++ String "?" query). rewrite app_assoc_str. split; [done|].
      by destruct x1. }
    destruct HA as [[-> ->] | ->]; [by eexists|].
    exists (x2 ++ String "#" fragment). rewrite app_assoc_str. split; [done|].
    by destruct x2.
  - intros q Hall.
    assert (Str.all q A = true /\ Str.all q fragment = true) as [HqA ?].
    { destruct HA as [[-> ->] | ->]; [done|].
      rewrite all_app in Hall. simpl in Hall.
      destruct (Str.all q A), (q "#"%char), (Str.all q fragment); done. }
    assert (Str.all q B = true /\ Str.all q query = true) as [HqB ?].
    { destruct HB as [[-> ->] | ->]; [done|].
      rewrite all_app in HqA. simpl in HqA.
      destruct (Str.all q B), (q "?"%char), (Str.all q query); done. }
    assert (Str.all q path = true /\ Str.all q params = true) as [? ?].
    { destruct HP as [[-> ->] | ->]; [done|].
      rewrite all_app in HqB. simpl in HqB.
      destruct (Str.all q path), (q ";"%char), (Str.all q params); done. }
    done.
Qed.

End Components.

Section Scheme.
Implicit Types (c : ascii) (s a b url path params query fragment : string) (i : nat).

Lemma map_empty f s : Str.map f s = "" -> s = "".
Proof. by destruct s. Qed.

Lemma split_scheme_plain url : has_scheme url = false -> Url.split_scheme url = ("", url).
Proof.
  unfold has_scheme, Url.split_scheme.
  destruct (Str.find ":" url) as [[|i']|]; try done.
  destruct url as [|c0 url']; [done|]. by intros ->.
Qed.

Lemma split_scheme_empty url rest :
  Url.split_scheme url = ("", rest) -> rest = url /\ has_scheme url = false.
Proof.
  unfold has_scheme, Url.split_scheme.
  destruct (Str.find ":" url) as [[|i']|]; try (intros Heq; by inversion Heq).
  destruct url as [|c0 url']; [intros Heq; by inversion Heq|].
  destruct (_ && _); [|intros Heq; by inversion Heq].
  intros Heq. by inversion Heq.
Qed.

Lemma delimiter_not_scheme_char d : delimiter d = true -> Url.scheme_char d = false.
Proof.
  unfold delimiter. rewrite !orb_true_iff, !Ascii.eqb_eq. by intros [[-> | ->] | ->].
Qed.

Lemma delimiter_not_colon d : delimiter d = true -> d <> ":"%char.
Proof.
  unfold delimiter. rewrite !orb_true_iff, !Ascii.eqb_eq. by intros [[-> | ->] | ->].
Qed.

(** Appending to the path a suffix without colon does not create a
    scheme. *)
Lemma has_scheme_suffix path sfx x y :
  path <> "" ->
  Str.find ":" sfx = None ->
  delimited x = true -> delimited y = true ->
  has_scheme (path ++ x) = false ->
  has_scheme (path ++ sfx ++ y) = false.
Proof.
  intros Hpath Hsfx Hx Hy. unfold has_scheme.
  destruct path as [|c0 path']; [done|]. clear Hpath.
  rewrite !(find_app ":" (String c0 path')).
  destruct (Str.find ":" (String c0 path')) as [i|] eqn:Hi.
  - destruct i as [|i']; [done|]. apply find_lt in Hi.
    change (String c0 path' ++ x) with (String c0 (path' ++ x)).
    change (String c0 path' ++ sfx ++ y) with (String c0 (path' ++ sfx ++ y)).
    change (Str.take (S i') (String c0 (path' ++ x)))
      with (String c0 (Str.take i' (path' ++ x))).
    change (Str.take (S i') (String c0 (path' ++ sfx ++ y)))
      with (String c0 (Str.take i' (path' ++ sfx ++ y))).
    simpl in Hi. by rewrite !take_app_le by lia.
  - intros _. rewrite find_app, Hsfx.
    destruct y as [|d y']; [done|]. simpl in Hy.
    rewrite find_cons_ne by (by apply delimiter_not_colon).
    destruct (Str.find ":" y') as [j|]; [|done]. simpl.
    change (String c0 path' ++ sfx ++ String d y')
      with (String c0 (path' ++ sfx ++ String d y')).
    replace (String.length path' + (String.length sfx + S j))
      with (String.length (path' ++ sfx) + S j) by (rewrite length_app; lia).
    change (Str.take (S (String.length (path' ++ sfx) + S j))
              (String c0 (path' ++ sfx ++ String d y')))
      with (String c0 (Str.take (String.length (path' ++ sfx) + S j)
                         (path' ++ sfx ++ String d y'))).
    rewrite <- app_assoc_str, take_app_ge. simpl Str.take.
    simpl Str.all. rewrite all_app. simpl Str.all.
    rewrite (delimiter_not_scheme_char d Hy).
    by rewrite andb_false_r, !andb_false_r.
Qed.

Lemma lstrip_first (p : ascii -> bool) s (ch : ascii) r :
  Str.lstrip p s = String ch r -> p ch = false.
Proof.
  induction s as [|x s IH]; simpl; [discriminate|].
  destruct (p x) eqn:Hx; [done|]. intros Heq. by inversion Heq; subst.
Qed.

Lemma unsafe_is_control (ch : ascii) :
  Url.unsafe_url_byte ch = true -> Url.c0_control_or_space ch = true.
Proof.
  unfold Url.unsafe_url_byte, Url.c0_control_or_space.
  rewrite !orb_true_iff, !Nat.eqb_eq, Nat.leb_le. lia.
Qed.

(** The cleaned URL has no unsafe byte and does not start with a control
    character or a space. *)
Lemma clean_first url (ch : ascii) r :
  Str.remove Url.unsafe_url_byte (Str.lstrip Url.c0_control_or_space url) = String ch r ->
  Url.c0_control_or_space ch = false.
Proof.
  destruct (Str.lstrip Url.c0_control_or_space url) as [|b r'] eqn:Hs; [done|].
  apply lstrip_first in Hs. simpl.
  destruct (Url.unsafe_url_byte b) eqn:Hb.
  - apply unsafe_is_control in Hb. congruence.
  - intros Heq. by inversion Heq; subst.
Qed.

Lemma lstrip_id (p : ascii -> bool) (ch : ascii) r :
  p ch = false -> Str.lstrip p (String ch r) = String ch r.
Proof. intros Ha. simpl. by rewrite Ha. Qed.

Lemma length_take i s : String.length (Str.take i s) = i `min` String.length s.
Proof.
  revert i. induction s as [|x s IH]; intros i; simpl; [by destruct i|].
  destruct i; simpl; [done|]. by rewrite IH.
Qed.

Lemma length_drop i s : String.length (Str.drop i s) = String.length s - i.
Proof.
  revert i. induction s as [|x s IH]; intros i; simpl; [by destruct i|].
  destruct i; simpl; [done|]. by rewrite IH.
Qed.

Lemma length_zero s : String.length s = 0 -> s = "".
Proof. by destruct s. Qed.


End Scheme.

Section Netloc.
Implicit Types (c : ascii) (s a b url path params query fragment : string) (i : nat).

Lemma drop_drop i j s : Str.drop (i + j) s = Str.drop j (Str.drop i s).
Proof.
  revert s. induction i as [|i IH]; intros s; simpl; [by destruct s, j|].
  destruct s; [by destruct j|]. apply IH.
Qed.

Lemma find_drop_at c s j : Str.find c s = Some j -> exists r, Str.drop j s = String c r.
Proof.
  intros Hj. destruct (find_split _ _ _ Hj) as (Hs & _ & Hl).
  exists (Str.drop (S j) s). rewrite Hs at 1. rewrite <- Hl at 1. apply drop_app.
Qed.

Lemma find_from_at c s start i :
  Str.find_from c s start = Some i -> exists r, Str.drop i s = String c r.
Proof.
  unfold Str.find_from. destruct (Nat.leb start (String.length s)); [|discriminate].
  destruct (Str.find c (Str.drop start s)) as [j|] eqn:Hj; simpl; [|discriminate].
  intros Heq. inversion Heq; subst. rewrite drop_drop. by apply find_drop_at.
Qed.

Lemma drop_length s : Str.drop (String.length s) s = "".
Proof. apply length_zero. rewrite length_drop. lia. Qed.

Lemma drop_min (Q : string -> Prop) (n m : nat) s :
  Q (Str.drop n s) -> Q (Str.drop m s) -> Q (Str.drop (n `min` m) s).
Proof. intros Hn Hm. by destruct (Nat.min_spec n m) as [[_ ->] | [_ ->]]. Qed.

(** What follows the network location is empty or starts with a slash, a
    question mark or a hash. *)
Lemma splitnetloc_rest url netloc rest :
  Url._splitnetloc url 2 = (netloc, rest) -> after_netloc rest.
Proof.
  unfold Url._splitnetloc. simpl foldl. intros Heq.
  pose proof (f_equal snd Heq) as Hrest. cbn [fst snd] in Hrest. clear Heq. subst rest.
  assert (after_netloc (Str.drop (String.length url) url)) as Hend
    by (left; apply drop_length).
  assert (forall d i, (d = "/" \/ d = "?" \/ d = "#")%char ->
                      Str.find_from d url 2 = Some i -> after_netloc (Str.drop i url))
    as Hat.
  { intros d i Hd Hi. apply find_from_at in Hi as [r Hr]. right. eauto. }
  destruct (Str.find_from "/" url 2) as [i1|] eqn:H1;
    destruct (Str.find_from "?" url 2) as [i2|] eqn:H2;
    destruct (Str.find_from "#" url 2) as [i3|] eqn:H3;
    repeat apply drop_min; eauto.
Qed.

Lemma split_netloc_rest url netloc rest :
  Url.split_netloc url = (netloc, rest) ->
  (netloc = "" /\ rest = url) \/ after_netloc rest.
Proof.
  unfold Url.split_netloc. destruct (String.eqb (Str.take 2 url) "//").
  - intros Heq. right. by eapply splitnetloc_rest.
  - intros Heq. inversion Heq. by left.
Qed.

End Netloc.

Section Reparse.
Context `{Externals}.
Implicit Types (s url path params query fragment : string) (p : Url.ParseResult).

Lemma netloc_ok_empty : Url.netloc_ok "" = true.
Proof. reflexivity. Qed.

(** Parsing a URL that is already clean, has no scheme and does not start
    with two slashes only splits it into its components. *)
Lemma urlparse_str_plain s path params query fragment :
  Str.lstrip Url.c0_control_or_space s = s ->
  Str.remove Url.unsafe_url_byte s = s ->
  has_scheme s = false ->
  String.eqb (Str.take 2 s) "//" = false ->
  components s = (path, params, query, fragment) ->
  Url.urlparse_str s = Ok (Url.mkParseResult "" "" path params query fragment).
Proof.
  intros Hstrip Hremove Hscheme Hslashes Hcomp.
  unfold Url.urlparse_str, Url.urlsplit. rewrite Hstrip, Hremove.
  rewrite (split_scheme_plain _ Hscheme). unfold Url.split_netloc. rewrite Hslashes.
  unfold components in Hcomp.
  destruct (Url.split_at "#" s) as [A fragment'].
  destruct (Url.split_at "?" A) as [B query'].
  rewrite netloc_ok_empty. simpl.
  destruct (Url.split_params "" B) as [path' params'].
  by inversion Hcomp.
Qed.

(** What is known of a URL that parses to a result without scheme whose
    path starts with a character other than a slash. *)
Lemma urlparse_str_relative url p (c0 : ascii) (rest : string) :
  Url.urlparse_str url = Ok p ->
  Url.scheme p = "" ->
  Url.path p = String c0 rest ->
  c0 <> "/"%char ->
  Url.netloc p = "" /\
  has_scheme (clean url) = false /\
  components (clean url) =
    (Url.path p, Url.params p, Url.query p, Url.fragment p).
Proof.
  unfold Url.urlparse_str, Url.urlsplit. fold (clean url).
  destruct (Url.split_scheme (clean url)) as [scheme c1] eqn:Hscheme.
  destruct (Url.split_netloc c1) as [netloc c2] eqn:Hnetloc.
  destruct (Url.split_at "#" c2) as [A fragment] eqn:HA.
  destruct (Url.split_at "?" A) as [B query] eqn:HB.
  destruct (Url.netloc_ok netloc); simpl; [|discriminate].
  destruct (Url.split_params scheme B) as [path params] eqn:HP.
  intros Heq. inversion Heq; subst p. clear Heq. simpl.
  intros -> -> Hc0.
  apply split_scheme_empty in Hscheme as [-> Hscheme].
  assert (components c2 = (String c0 rest, params, query, fragment)) as Hcomp.
  { unfold components. by rewrite HA, HB, HP. }
  destruct (components_spec _ _ _ _ _ Hcomp) as ([Hp1 Hp2 _ _ _ _ _] & (x & Hc2 & _) & _).
  apply split_netloc_rest in Hnetloc as [[-> ->] | [-> | (d & r & -> & Hd)]].
  - done.
  - discriminate.
  - inversion Hc2; subst d. simpl in Hp1, Hp2.
    destruct Hd as [-> | [-> | ->]]; [done|discriminate|discriminate].
Qed.

Lemma clean_spec url (c0 : ascii) (rest : string) :
  clean url = String c0 rest ->
  Url.c0_control_or_space c0 = false /\
  Str.all (fun x => negb (Url.unsafe_url_byte x)) (clean url) = true.
Proof.
  intros Hc. split; [by eapply clean_first | apply all_remove].
Qed.

Lemma no_leading_slashes (c0 : ascii) (r : string) :
  c0 <> "/"%char -> String.eqb (Str.take 2 (String c0 r)) "//" = false.
Proof.
  intros Hc0. apply Ascii.eqb_neq in Hc0. destruct r; simpl; by rewrite Hc0.
Qed.

(** The URL given to an eligible link parses to the components of the
    URL it had, with the suffix on the path. *)
Lemma urlparse_str_rewritten url p (c0 : ascii) (rest : string) :
  Url.urlparse_str url = Ok p ->
  Url.scheme p = "" ->
  Url.path p = String c0 rest ->
  c0 <> "/"%char ->
  Url.urlparse_str (rewritten_url p) =
  Ok (Url.mkParseResult "" "" (Url.path p ++ json_suffix)
        (Url.params p) (Url.query p) (Url.fragment p)).
Proof.
  intros Hparse Hscheme Hpath Hc0.
  destruct (urlparse_str_relative _ _ _ _ Hparse Hscheme Hpath Hc0)
    as (Hnetloc & Hnoscheme & Hcomp).
  destruct (components_spec _ _ _ _ _ Hcomp)
    as ([Hp1 Hp2 Hp3 Ha1 Ha2 Ha3 Hq1] & (x & Hclean & Hx) & Hall).
  assert (rewritten_url p =
          assemble (Url.path p ++ json_suffix) (Url.params p) (Url.query p) (Url.fragment p))
    as -> by (unfold rewritten_url, assemble; by rewrite Hscheme, Hnetloc).
  assert (plain_components (Url.path p ++ json_suffix) (Url.params p)
            (Url.query p) (Url.fragment p)) as Hplain.
  { constructor; try done.
    - by apply find_app_None.
    - by apply find_app_None.
    - rewrite basename_app_clear by done. by apply find_app_None. }
  pose proof Hclean as Hclean'. rewrite Hpath in Hclean'.
  destruct (clean_spec url c0 (rest ++ x) Hclean') as [Hctl Hsafe].
  destruct (Hall _ Hsafe) as (Hs1 & Hs2 & Hs3 & Hs4).
  pose proof (components_assemble _ _ _ _ Hplain) as Hre.
  destruct (components_spec _ _ _ _ _ Hre) as (_ & (y & Hy & Hdel) & _).
  apply urlparse_str_plain; [| | | |done].
  - rewrite Hy, Hpath. by apply lstrip_id.
  - apply remove_id. rewrite assemble_unfold.
    assert (Str.all (fun x => negb (Url.unsafe_url_byte x)) json_suffix = true)
      as Hs0 by reflexivity.
    destruct (String.eqb (Url.params p) ""), (String.eqb (Url.query p) ""),
      (String.eqb (Url.fragment p) ""); simpl negb; cbv iota;
      rewrite ?all_app; cbn [Str.all]; by rewrite ?Hs0, ?Hs1, ?Hs2, ?Hs3, ?Hs4.
  - rewrite Hy, app_assoc_str. apply (has_scheme_suffix _ _ x); try done.
    + by rewrite Hpath.
    + by rewrite <- Hclean.
  - rewrite Hy, Hpath. by apply (no_leading_slashes c0 ((rest ++ json_suffix) ++ y)).
Qed.

End Reparse.

Section Idempotence.
Context `{Externals}.

Lemma urlparse_not_str (v : json) (p : Url.ParseResult) :
  (forall s, v <> JStr s) -> Url.urlparse v = Ok p -> Url.path p = "".
Proof.
  intros Hv. unfold Url.urlparse.
  destruct v; try (destruct (truthy _); [discriminate|];
                   intros Heq; by inversion Heq).
  by destruct (Hv s).
Qed.

Lemma rewrite_link_settled (docnames : gset string) (link link1 : json) :
  settled_corpus docnames ->
  MySTBuilderMixin.rewrite_link docnames link = Ok link1 ->
  MySTBuilderMixin.rewrite_link docnames link1 = Ok link1.
Proof.
  intros Hcorpus Hrw.
  destruct link as [| | | | | |members]; try discriminate.
  pose proof Hrw as Hrw'. rewrite rewrite_link_unfold in Hrw.
  destruct (dict_lookup "url" members) as [url|] eqn:Hurl; [|discriminate].
  destruct (Url.urlparse url) as [p|e] eqn:Hp; [|discriminate].
  destruct (eligible docnames p) eqn:He; inversion Hrw; subst link1; [|done].
  clear Hrw Hrw'. apply eligible_true in He as (Hscheme & Hpath & Hdoc).
  destruct (Hcorpus _ Hdoc) as [Hslash Hfresh].
  assert (exists s, url = JStr s) as [s ->].
  { destruct url as [| b | z | q | s | items | members'];
      try (exfalso; apply Hpath; eapply urlparse_not_str; [|exact Hp];
           intros s'; discriminate).
    by eexists. }
  simpl in Hp.
  destruct (Url.path p) as [|c0 rest] eqn:Hpath'; [done|].
  assert (c0 <> "/"%char) as Hc0.
  { intros ->. simpl in Hslash. by destruct rest. }
  pose proof (urlparse_str_rewritten s p c0 rest Hp Hscheme Hpath' Hc0) as Hre.
  rewrite rewrite_link_unfold, dict_lookup_store_eq. simpl Url.urlparse.
  rewrite Hre.
  assert (eligible docnames
            {| Url.scheme := ""; Url.netloc := ""; Url.path := Url.path p ++ json_suffix;
               Url.params := Url.params p; Url.query := Url.query p;
               Url.fragment := Url.fragment p |} = false) as ->; [|done].
  apply not_true_is_false. intros He. apply eligible_true in He as (_ & _ & Hin).
  simpl in Hin. by rewrite Hpath' in Hin.
Qed.

Lemma relink_settled (docnames : gset string) (x : json) :
  settled_corpus docnames ->
  MySTBuilderMixin.relink docnames (MySTBuilderMixin.relink docnames x) =
  MySTBuilderMixin.relink docnames x.
Proof.
  intros Hcorpus. unfold MySTBuilderMixin.relink at 2 3.
  destruct (MySTBuilderMixin.rewrite_link docnames x) as [x1|e] eqn:Hrw.
  - unfold MySTBuilderMixin.relink. by rewrite (rewrite_link_settled _ _ _ Hcorpus Hrw).
  - unfold MySTBuilderMixin.relink. by rewrite Hrw.
Qed.

Lemma update_children_store (g : json -> json) (k : string) (v : json)
    (members : list (string * json)) :
  k <> "children" ->
  Utils.update_children g (dict_store k v members) =
  dict_store k v (Utils.update_children g members).
Proof.
  intros Hk. apply String.eqb_neq in Hk.
  induction members as [|[k0 v0] members IH]; simpl.
  - by rewrite Hk.
  - destruct (String.eqb k0 k) eqn:Hk0; simpl.
    + apply String.eqb_eq in Hk0 as ->. rewrite Hk. simpl. by rewrite String.eqb_refl.
    + destruct (String.eqb k0 "children") eqn:Hc; simpl.
      * by rewrite Hk0.
      * by rewrite Hk0, IH.
Qed.

Lemma update_children_twice (g : json -> json) (members : list (string * json)) :
  Forall (fun kv => forall items, snd kv = JArr items ->
                                  Forall (fun x => g (g x) = g x) items) members ->
  Utils.update_children g (Utils.update_children g members) =
  Utils.update_children g members.
Proof.
  induction 1 as [|[k0 v0] members Hv _ IH]; simpl; [done|].
  destruct (String.eqb k0 "children") eqn:Hc; simpl; rewrite Hc.
  - f_equal. f_equal. destruct v0; try done. f_equal.
    rewrite <- list_fmap_compose. apply list_fmap_ext.
    intros i x Hx. simpl. specialize (Hv items eq_refl).
    rewrite Forall_forall in Hv. apply Hv. apply list_elem_of_lookup. eauto.
  - by rewrite IH.
Qed.

(** On a settled corpus a second run of the loop changes nothing. *)
Lemma relink_tree_settled (docnames : gset string) (t : json) :
  settled_corpus docnames ->
  relink_tree docnames (relink_tree docnames t) = relink_tree docnames t.
Proof.
  intros Hcorpus.
  cut (relink_tree docnames (relink_tree docnames t) = relink_tree docnames t /\
       forall items, t = JArr items ->
         Forall (fun x => relink_tree docnames (relink_tree docnames x) =
                          relink_tree docnames x) items); [by intros [? _]|].
  induction t as [| | | | |items IH|members IH] using json_nested_ind; try done.
  - split; [done|]. intros items' Heq. inversion Heq; subst.
    eapply Forall_impl; [exact IH|]. by intros x [? _].
  - split; [|done].
    assert (Utils.update_children (relink_tree docnames)
              (Utils.update_children (relink_tree docnames) members) =
            Utils.update_children (relink_tree docnames) members) as Htwice.
    { apply update_children_twice. eapply Forall_impl; [exact IH|].
      intros [k v] [_ Hitems]. exact Hitems. }
    rewrite (relink_tree_obj docnames members).
    destruct (Utils.has_type "link" (JObj members)) eqn:Hty.
    + destruct (relink_fields docnames
                  (Utils.update_children (relink_tree docnames) members))
        as (members' & Hrelink & Hsame & Hcases).
      rewrite Hrelink, relink_tree_obj.
      assert (Utils.has_type "link" (JObj members') = true) as ->.
      { simpl. rewrite Hsame by done.
        rewrite dict_lookup_update_children_ne by done. exact Hty. }
      assert (Utils.update_children (relink_tree docnames) members' = members') as ->.
      { destruct Hcases as [->|(url & p & _ & _ & _ & ->)]; [done|].
        rewrite update_children_store by done. by rewrite Htwice. }
      rewrite <- Hrelink. by apply relink_settled.
    + rewrite relink_tree_obj.
      assert (Utils.has_type "link"
                (JObj (Utils.update_children (relink_tree docnames) members)) = false)
        as ->.
      { simpl. rewrite dict_lookup_update_children_ne by done. exact Hty. }
      by rewrite Htwice.
Qed.

End Idempotence.

End UrlFacts.

(** ** Running the link rewrite twice *)

Section Twice.
Context `{Externals}.

(** After the loop, the loop body leaves every link of the tree as it
    is. *)
Lemma relink_tree_link_settled (docnames : gset string) (link link1 : json) :
  settled_corpus docnames ->
  Utils.has_type "link" link = true ->
  MySTBuilderMixin.rewrite_link docnames link = Ok link1 ->
  MySTBuilderMixin.rewrite_link docnames (relink_tree docnames link) =
  Ok (relink_tree docnames link).
Proof.
  intros Hcorpus Hty Hrw. destruct link as [| | | | | |members]; try discriminate.
  rewrite relink_tree_obj, Hty.
  rewrite rewrite_link_unfold in Hrw.
  destruct (dict_lookup "url" members) as [url|] eqn:Hurl; [|discriminate].
  destruct (Url.urlparse url) as [p|e] eqn:Hp; [|discriminate].
  apply (rewrite_link_settled docnames
           (JObj (Utils.update_children (relink_tree docnames) members))); [done|].
  unfold MySTBuilderMixin.relink. rewrite rewrite_link_unfold.
  rewrite dict_lookup_update_children_ne by done. rewrite Hurl, Hp.
  by destruct (eligible docnames p).
Qed.

(** C7, as the code has it. On a corpus in which no document id starts
    with a slash and no document id is another document id followed by
    [".myst.json"], [transform_internal_links] applied to its own result
    does not raise and returns that result: no URL gets the suffix a
    second time. *)
Theorem C7_transform_internal_links_idempotent (self : Builder) (node node1 : json) :
  settled_corpus (found_docs (env self)) ->
  MySTBuilderMixin.transform_internal_links self node = Ok node1 ->
  MySTBuilderMixin.transform_internal_links self node1 = Ok node1.
Proof.
  intros Hcorpus Hrun. apply transform_internal_links_Ok in Hrun as [-> Hlinks].
  unfold MySTBuilderMixin.transform_internal_links.
  rewrite (for_each_total _ id).
  - simpl. fold (relink_tree (found_docs (env self))).
    by rewrite relink_tree_settled.
  - rewrite find_by_type_relink_tree. apply Forall_fmap, Forall_forall.
    intros link Hlink. rewrite Forall_forall in Hlinks.
    destruct (Hlinks link Hlink) as (link1 & Hrw). simpl.
    eapply relink_tree_link_settled; [done| |exact Hrw].
    by eapply find_by_type_has_type.
Qed.

End Twice.

(** C7. With the document ids [guide] and [guide.myst.json], the link to
    [guide] is rewritten by the first run and again by the second. *)
Lemma C7_counterexample :
  MySTBuilderMixin.transform_internal_links (H := Sample.externals) Sample.twin_builder
    (Sample.paragraph_with_link "guide") =
    Ok (Sample.paragraph_with_link "guide.myst.json") /\
  MySTBuilderMixin.transform_internal_links (H := Sample.externals) Sample.twin_builder
    (Sample.paragraph_with_link "guide.myst.json") =
    Ok (Sample.paragraph_with_link "guide.myst.json.myst.json") /\
  Sample.paragraph_with_link "guide.myst.json.myst.json" <>
    Sample.paragraph_with_link "guide.myst.json".
Proof.
  split; [vm_compute; reflexivity|]. split; [vm_compute; reflexivity|]. discriminate.
Qed.

(** With a document id that starts with two slashes, the URL written by
    the first run has a network location the second run rejects. *)
Lemma transform_internal_links_twice_raises :
  MySTBuilderMixin.transform_internal_links (H := Sample.externals) Sample.slashes_builder
    (Sample.paragraph_with_link "////[/y") =
    Ok (Sample.paragraph_with_link "//[/y.myst.json") /\
  MySTBuilderMixin.transform_internal_links (H := Sample.externals) Sample.slashes_builder
    (Sample.paragraph_with_link "//[/y.myst.json") = Raise ValueError.
Proof. split; vm_compute; reflexivity. Qed.

Lemma sample_corpus_settled : settled_corpus (found_docs (env Sample.builder)).
Proof.
  intros d Hd. simpl in Hd.
  apply elem_of_union in Hd as [Hd|Hd]; [apply elem_of_union in Hd as [Hd|Hd]|];
    apply elem_of_singleton in Hd as ->;
    (split; [reflexivity|]); intros Hin; apply (bool_decide_pack _) in Hin;
    vm_compute in Hin; exact Hin.
Defined.

Lemma C7_witness :
  MySTBuilderMixin.transform_internal_links (H := Sample.externals) Sample.builder
    Sample.intro_written = Ok Sample.intro_written.
Proof.
  apply (C7_transform_internal_links_idempotent (H := Sample.externals) Sample.builder
           Sample.intro_mdast Sample.intro_written).
  - exact sample_corpus_settled.
  - vm_compute. reflexivity.
Defined.

Lemma C4_witness :
  Forall2
    (fun link link' =>
       exists url p,
         getitem link "url" = Ok url /\ Url.urlparse (H := Sample.externals) url = Ok p /\
         (Url.scheme p <> "" \/ Url.path p = "" \/
          Url.path p ∉ found_docs (env Sample.builder) ->
          getitem link' "url" = Ok url) /\
         (Url.scheme p = "" -> Url.path p <> "" ->
          Url.path p ∈ found_docs (env Sample.builder) ->
          getitem link' "url" =
          Ok (JStr (Url.urlunparse
                      {| Url.scheme := Url.scheme p;
                         Url.netloc := Url.netloc p;
                         Url.path := Url.path p ++ ".myst.json";
                         Url.params := Url.params p;
                         Url.query := Url.query p;
                         Url.fragment := Url.fragment p |}))) /\
         (forall k, k <> "url" -> k <> "children" -> getitem link' k = getitem link k))
    (Utils.find_by_type "link" Sample.intro_mdast)
    (Utils.find_by_type "link" Sample.intro_written).
Proof.
  apply (C4_transform_internal_links_frame (H := Sample.externals) Sample.builder
           Sample.intro_mdast Sample.intro_written).
  vm_compute. reflexivity.
Defined.

(** ** Emission of a document *)

Section Emission.
Context `{Externals}.

(** C6. When the link rewrite and the reading of the source succeed,
    the cross-reference builder's [write_doc] writes an artifact that
    holds the tree after the link rewrite and whose frontmatter has, when
    the tree contains a heading, the text of the first heading as [title]
    and [content_includes_title] true, and otherwise a null [title] and
    [content_includes_title] false. *)
Theorem C6_write_doc_title (self : Builder) (doc_name : string) (doc_tree : json)
    (fs : Files) (mdast : json) (contents : list byte) :
  MySTBuilderMixin.transform_internal_links self doc_tree = Ok mdast ->
  read_bytes fs (MySTXRefBuilder._get_source_path self doc_name) = Ok contents ->
  exists art frontmatter,
    MySTXRefBuilder.write_doc self doc_name doc_tree fs =
      Ok (<[MySTXRefBuilder._get_target_path self doc_name := JsonFile art]> fs) /\
    getitem art "mdast" = Ok mdast /\
    getitem art "frontmatter" = Ok frontmatter /\
    keys frontmatter = ["title"; "content_includes_title"] /\
    match Utils.find_by_type "heading" mdast with
    | heading :: _ =>
        getitem frontmatter "title" = Ok (JStr (to_text heading)) /\
        getitem frontmatter "content_includes_title" = Ok (JBool true)
    | [] =>
        getitem frontmatter "title" = Ok JNull /\
        getitem frontmatter "content_includes_title" = Ok (JBool false)
    end.
Proof.
  intros Hlinks Hsource. unfold MySTXRefBuilder.write_doc.
  rewrite Hlinks. simpl. rewrite Hsource. simpl.
  eexists _, _. split; [reflexivity|]. split; [reflexivity|]. split; [reflexivity|].
  unfold MySTXRefBuilder.lift_title.
  by destruct (Utils.find_by_type "heading" mdast).
Qed.

(** The link rewrite neither adds nor removes a heading. *)
Lemma transform_internal_links_headings (self : Builder) (node node' : json) :
  MySTBuilderMixin.transform_internal_links self node = Ok node' ->
  Utils.find_by_type "heading" node' =
  map (relink_tree (found_docs (env self))) (Utils.find_by_type "heading" node).
Proof.
  intros Hrun. apply transform_internal_links_Ok in Hrun as [-> _].
  apply find_by_type_relink_tree.
Qed.

(** C9. The slug and the output path of a document depend only on the
    basename of its id: two ids with the same basename have, in both
    builders, the same slug and the same output path, and writing the
    second document puts its artifact at the output path of the first,
    whatever was there. *)
Theorem C9_slug_depends_on_basename (self : Builder) (d1 d2 : string) :
  OsPath.basename d1 = OsPath.basename d2 ->
  MySTBuilder._slugify d1 = MySTBuilder._slugify d2 /\
  MySTBuilder._get_output_path self d1 = MySTBuilder._get_output_path self d2 /\
  MySTXRefBuilder._slugify d1 = MySTXRefBuilder._slugify d2 /\
  MySTXRefBuilder._get_target_path self d1 = MySTXRefBuilder._get_target_path self d2 /\
  (forall doc_tree fs fs',
      MySTBuilder.write_doc self d2 doc_tree fs = Ok fs' ->
      exists mdast,
        MySTBuilderMixin.transform_internal_links self doc_tree = Ok mdast /\
        fs' !! MySTBuilder._get_output_path self d1 =
          Some (JsonFile (JObj [("kind", JStr "Article"); ("mdast", mdast)]))) /\
  (forall doc_tree fs fs',
      MySTXRefBuilder.write_doc self d2 doc_tree fs = Ok fs' ->
      exists art,
        fs' !! MySTXRefBuilder._get_target_path self d1 = Some (JsonFile art) /\
        getitem art "location" = Ok (JStr ("/" ++ d2))).
Proof.
  intros Hbase.
  assert (MySTBuilder._slugify d1 = MySTBuilder._slugify d2) as Hslug
    by (unfold MySTBuilder._slugify; by rewrite Hbase).
  assert (MySTXRefBuilder._slugify d1 = MySTXRefBuilder._slugify d2) as Hslug'
    by (unfold MySTXRefBuilder._slugify; by rewrite Hbase).
  assert (MySTBuilder._get_output_path self d1 = MySTBuilder._get_output_path self d2)
    as Hpath by (unfold MySTBuilder._get_output_path; by rewrite Hslug).
  assert (MySTXRefBuilder._get_target_path self d1 =
          MySTXRefBuilder._get_target_path self d2)
    as Hpath' by (unfold MySTXRefBuilder._get_target_path; by rewrite Hslug').
  repeat (split; [done|]). split.
  - intros doc_tree fs fs'. unfold MySTBuilder.write_doc.
    destruct (MySTBuilderMixin.transform_internal_links self doc_tree) as [mdast|e];
      simpl; [|discriminate].
    intros Heq. inversion Heq; subst. exists mdast. split; [done|].
    rewrite Hpath. unfold json_dump. by rewrite lookup_insert_eq.
  - intros doc_tree fs fs'. unfold MySTXRefBuilder.write_doc.
    destruct (MySTBuilderMixin.transform_internal_links self doc_tree) as [mdast|e];
      simpl; [|discriminate].
    destruct (read_bytes fs _) as [contents|e]; simpl; [|discriminate].
    intros Heq. inversion Heq; subst. eexists. split.
    + rewrite Hpath'. unfold json_dump. by rewrite lookup_insert_eq.
    + reflexivity.
Qed.

End Emission.

Lemma C6_witness :
  exists art frontmatter,
    MySTXRefBuilder.write_doc (H := Sample.externals) Sample.builder "intro"
      Sample.intro_mdast Sample.sources =
      Ok (<[MySTXRefBuilder._get_target_path (H := Sample.externals) Sample.builder "intro"
            := JsonFile art]> Sample.sources) /\
    getitem art "mdast" = Ok Sample.intro_written /\
    getitem art "frontmatter" = Ok frontmatter /\
    keys frontmatter = ["title"; "content_includes_title"] /\
    match Utils.find_by_type "heading" Sample.intro_written with
    | heading :: _ =>
        getitem frontmatter "title" = Ok (JStr (to_text (Externals := Sample.externals) heading)) /\
        getitem frontmatter "content_includes_title" = Ok (JBool true)
    | [] =>
        getitem frontmatter "title" = Ok JNull /\
        getitem frontmatter "content_includes_title" = Ok (JBool false)
    end.
Proof.
  apply (C6_write_doc_title (H := Sample.externals) Sample.builder "intro"
           Sample.intro_mdast Sample.sources Sample.intro_written []).
  - vm_compute. reflexivity.
  - vm_compute. reflexivity.
Defined.

Lemma C9_witness :
  MySTBuilder._slugify (H := Sample.externals) "a/index" =
    MySTBuilder._slugify (H := Sample.externals) "b/index" /\
  MySTBuilder._get_output_path (H := Sample.externals) Sample.builder "a/index" =
    MySTBuilder._get_output_path (H := Sample.externals) Sample.builder "b/index" /\
  MySTXRefBuilder._slugify (H := Sample.externals) "a/index" =
    MySTXRefBuilder._slugify (H := Sample.externals) "b/index" /\
  MySTXRefBuilder._get_target_path (H := Sample.externals) Sample.builder "a/index" =
    MySTXRefBuilder._get_target_path (H := Sample.externals) Sample.builder "b/index" /\
  (forall doc_tree fs fs',
      MySTBuilder.write_doc (H := Sample.externals) Sample.builder "b/index" doc_tree fs
        = Ok fs' ->
      exists mdast,
        MySTBuilderMixin.transform_internal_links (H := Sample.externals)
          Sample.builder doc_tree = Ok mdast /\
        fs' !! MySTBuilder._get_output_path (H := Sample.externals) Sample.builder "a/index" =
          Some (JsonFile (JObj [("kind", JStr "Article"); ("mdast", mdast)]))) /\
  (forall doc_tree fs fs',
      MySTXRefBuilder.write_doc (H := Sample.externals) Sample.builder "b/index" doc_tree fs
        = Ok fs' ->
      exists art,
        fs' !! MySTXRefBuilder._get_target_path (H := Sample.externals)
                 Sample.builder "a/index" = Some (JsonFile art) /\
        getitem art "location" = Ok (JStr ("/" ++ "b/index"))).
Proof.
  apply (C9_slug_depends_on_basename (H := Sample.externals) Sample.builder
           "a/index" "b/index").
  reflexivity.
Defined.

(** * Further properties of the builders *)

(** ** Staleness: order, duplicates, the up-to-date corpus, old sources *)

Section StalenessMore.
Context `{Externals}.

Lemma flat_map_sublist {A : Type} (f : A -> list A) (l : list A) :
  (forall x, f x = [x] \/ f x = []) -> flat_map f l `sublist_of` l.
Proof.
  intros Hf. induction l as [|x l IH]; simpl; [constructor|].
  destruct (Hf x) as [-> | ->]; simpl; by constructor.
Qed.

Lemma myst_outdated_step_cases (self : Builder) (stat : Stat) (d : string) :
  MySTBuilder.outdated_step self stat d = [d] \/ MySTBuilder.outdated_step self stat d = [].
Proof. unfold MySTBuilder.outdated_step. repeat case_match; auto. Qed.

Lemma xref_outdated_step_cases (self : Builder) (stat : Stat) (d : string) :
  MySTXRefBuilder.outdated_step self stat d = [d] \/
  MySTXRefBuilder.outdated_step self stat d = [].
Proof. unfold MySTXRefBuilder.outdated_step. repeat case_match; auto. Qed.

(** X1. [get_outdated_docs] yields the stale documents in the order in
    which the set of known documents is iterated, and yields no document
    twice. Both builders. *)
Theorem X1_get_outdated_docs_in_order (self : Builder) (stat : Stat) :
  (MySTBuilder.get_outdated_docs self stat `sublist_of` elements (found_docs (env self)) /\
   NoDup (MySTBuilder.get_outdated_docs self stat)) /\
  (MySTXRefBuilder.get_outdated_docs self stat `sublist_of` elements (found_docs (env self)) /\
   NoDup (MySTXRefBuilder.get_outdated_docs self stat)).
Proof.
  assert (MySTBuilder.get_outdated_docs self stat
            `sublist_of` elements (found_docs (env self))) as Hm
    by (apply flat_map_sublist, myst_outdated_step_cases).
  assert (MySTXRefBuilder.get_outdated_docs self stat
            `sublist_of` elements (found_docs (env self))) as Hx
    by (apply flat_map_sublist, xref_outdated_step_cases).
  pose proof (NoDup_elements (found_docs (env self))) as Hnd.
  split; (split; [done|]); by eapply sublist_NoDup.
Qed.

Lemma nil_iff_no_elem {A : Type} (l : list A) : l = [] <-> forall x, x ∉ l.
Proof.
  split.
  - intros -> x Hx. inversion Hx.
  - intros Hl. destruct l as [|x l]; [done|]. destruct (Hl x). by left.
Qed.

(** X2. [get_outdated_docs] yields nothing exactly when every known
    document was built before and no source that can be statted is
    strictly newer than its output (taken as 0 when the output cannot be
    statted). Both builders. *)
Theorem X2_get_outdated_docs_empty_iff (self : Builder) (stat : Stat) :
  (MySTBuilder.get_outdated_docs self stat = [] <->
   forall d, d ∈ found_docs (env self) ->
     d ∈ all_docs (env self) /\
     forall s, stat (MySTBuilder._get_source_path self d) = Some s ->
               (s <= mtime_or_zero stat (MySTBuilder._get_output_path self d))%Q) /\
  (MySTXRefBuilder.get_outdated_docs self stat = [] <->
   forall d, d ∈ found_docs (env self) ->
     d ∈ all_docs (env self) /\
     forall s, stat (MySTXRefBuilder._get_source_path self d) = Some s ->
               (s <= mtime_or_zero stat (MySTXRefBuilder._get_target_path self d))%Q).
Proof.
  split; rewrite nil_iff_no_elem.
  - split.
    + intros Hnone d Hd.
      destruct (decide (d ∈ all_docs (env self))) as [Hall|Hnew].
      * split; [done|]. intros s Hs. apply Qnot_lt_le. intros Hlt.
        apply (Hnone d), myst_get_outdated_docs_spec. split; [done|]. right. eauto.
      * destruct (Hnone d). apply myst_get_outdated_docs_spec. split; [done|]. by left.
    + intros Hfresh d Hin.
      apply myst_get_outdated_docs_spec in Hin as [Hd [Hnew | (_ & s & Hs & Hlt)]];
        destruct (Hfresh d Hd) as [Hall Hle]; [done|].
      apply (Qlt_not_le _ _ Hlt). by apply Hle.
  - split.
    + intros Hnone d Hd.
      destruct (decide (d ∈ all_docs (env self))) as [Hall|Hnew].
      * split; [done|]. intros s Hs. apply Qnot_lt_le. intros Hlt.
        apply (Hnone d), xref_get_outdated_docs_spec. split; [done|]. right. eauto.
      * destruct (Hnone d). apply xref_get_outdated_docs_spec. split; [done|]. by left.
    + intros Hfresh d Hin.
      apply xref_get_outdated_docs_spec in Hin as [Hd [Hnew | (_ & s & Hs & Hlt)]];
        destruct (Hfresh d Hd) as [Hall Hle]; [done|].
      apply (Qlt_not_le _ _ Hlt). by apply Hle.
Qed.

(** X3. A document that was built before and whose output cannot be
    statted is not yielded when the time stamp of its source is 0 or
    less: the missing output counts as time 0 and the comparison is
    strict. Both builders. *)
Theorem X3_missing_output_epoch_source (self : Builder) (stat : Stat) (d : string) (s : Q) :
  d ∈ all_docs (env self) ->
  stat (doc2path (env self) d) = Some s ->
  (s <= 0)%Q ->
  (stat (MySTBuilder._get_output_path self d) = None ->
   d ∉ MySTBuilder.get_outdated_docs self stat) /\
  (stat (MySTXRefBuilder._get_target_path self d) = None ->
   d ∉ MySTXRefBuilder.get_outdated_docs self stat).
Proof.
  intros Hall Hs Hold. split; intros Hout Hin.
  - apply myst_get_outdated_docs_spec in Hin as [_ [Hn | (_ & s' & Hs' & Hlt)]]; [done|].
    unfold MySTBuilder._get_source_path in Hs'. rewrite Hs in Hs'. inversion Hs'; subst s'.
    unfold mtime_or_zero in Hlt. rewrite Hout in Hlt. by apply (Qlt_not_le _ _ Hlt).
  - apply xref_get_outdated_docs_spec in Hin as [_ [Hn | (_ & s' & Hs' & Hlt)]]; [done|].
    unfold MySTXRefBuilder._get_source_path in Hs'. rewrite Hs in Hs'.
    inversion Hs'; subst s'.
    unfold mtime_or_zero in Hlt. rewrite Hout in Hlt. by apply (Qlt_not_le _ _ Hlt).
Qed.

End StalenessMore.

Lemma X3_witness :
  ("guide" ∉ MySTBuilder.get_outdated_docs (H := Sample.externals)
               Sample.builder Sample.epoch_stat) /\
  ("guide" ∉ MySTXRefBuilder.get_outdated_docs (H := Sample.externals)
               Sample.builder Sample.epoch_stat).
Proof.
  assert ("guide" ∈ all_docs (env Sample.builder)) as Hbuilt by (simpl; set_solver).
  destruct (X3_missing_output_epoch_source (H := Sample.externals)
              Sample.builder Sample.epoch_stat "guide" 0%Q Hbuilt eq_refl (Qle_refl 0))
    as [Hmyst Hxref].
  split; [apply Hmyst | apply Hxref]; reflexivity.
Defined.

(** ** The link rewrite: what it raises, what it leaves alone, what the
    new URL means *)

Section LinksMore.
Context `{Externals}.

Lemma urlsplit_raises (url : string) (e : exn) :
  Url.urlsplit url = Raise e -> e = ValueError.
Proof.
  unfold Url.urlsplit.
  destruct (Url.split_scheme _) as [scheme c1].
  destruct (Url.split_netloc c1) as [netloc c2].
  destruct (Url.split_at "#" c2) as [A fragment].
  destruct (Url.split_at "?" A) as [B query].
  destruct (Url.netloc_ok netloc); [discriminate|]. intros Heq. by inversion Heq.
Qed.

Lemma urlparse_str_raises (url : string) (e : exn) :
  Url.urlparse_str url = Raise e -> Url.urlsplit url = Raise ValueError /\ e = ValueError.
Proof.
  unfold Url.urlparse_str. destruct (Url.urlsplit url) as [[[[[a b] c] d] f]|e'] eqn:Hsplit.
  - simpl. destruct (Url.split_params a c). discriminate.
  - simpl. intros Heq. inversion Heq; subst.
    pose proof (urlsplit_raises _ _ Hsplit) as ->. done.
Qed.

Lemma urlparse_empty_Ok : exists p, Url.urlparse_str "" = Ok p.
Proof. eexists. reflexivity. Qed.

(** X4. On a tree all of whose nodes are objects with a [type] field,
    so that the walker's own test of the type cannot raise,
    [transform_internal_links] raises only for one of its links, and
    only [KeyError('url')] for a link without [url], [AttributeError] for a
    [url] that is true and not a string, or [ValueError] for a [url] that
    [urlsplit] rejects. Both [write_doc] methods then raise the same
    exception, before any file is opened. *)
Theorem X4_transform_internal_links_raises (self : Builder) (node : json) (e : exn) :
  Forall (fun n => typed_node n = true) (Utils.breadth_first_walk node) ->
  MySTBuilderMixin.transform_internal_links self node = Raise e ->
  (exists link,
      link ∈ Utils.find_by_type "link" node /\
      ((getitem link "url" = Raise (KeyError "url") /\ e = KeyError "url") \/
       (exists url, getitem link "url" = Ok url /\ (forall s, url <> JStr s) /\
                    truthy url = true /\ e = AttributeError) \/
       (exists s, getitem link "url" = Ok (JStr s) /\
                  Url.urlsplit s = Raise ValueError /\ e = ValueError))) /\
  (forall doc_name fs,
      MySTBuilder.write_doc self doc_name node fs = Raise e /\
      MySTXRefBuilder.write_doc self doc_name node fs = Raise e).
Proof.
  intros _ Hrun. split.
  - unfold MySTBuilderMixin.transform_internal_links in Hrun.
    destruct (for_each _ _) as [ys|e'] eqn:Hloop; simpl in Hrun; [discriminate|].
    inversion Hrun; subst e'. clear Hrun.
    apply for_each_Raise in Hloop as (link & Hin & Hrw).
    exists link. split; [done|].
    pose proof (find_by_type_has_type _ _ _ Hin) as Hty.
    destruct link as [| | | | | |members]; try discriminate.
    rewrite rewrite_link_unfold in Hrw. simpl getitem.
    destruct (dict_lookup "url" members) as [url|]; [|inversion Hrw; by left].
    right. destruct (Url.urlparse url) as [p|e'] eqn:Hp;
      [destruct (eligible _ p); discriminate|].
    inversion Hrw; subst e'. clear Hrw. unfold Url.urlparse in Hp.
    destruct url as [| b | z | q | s | items | members'];
      try (left; eexists; split; [reflexivity|]; split; [discriminate|];
           destruct (truthy _) eqn:Htruthy;
             [inversion Hp; done | destruct urlparse_empty_Ok as [p' Hp']; congruence]).
    right. exists s. apply urlparse_str_raises in Hp as [Hsplit ->]. done.
  - intros doc_name fs.
    unfold MySTBuilder.write_doc, MySTXRefBuilder.write_doc. by rewrite Hrun.
Qed.

(** The fields of a node after the loop: all but [children], and [url]
    on a link, are as before. *)
Lemma relink_tree_members (docnames : gset string) (members : list (string * json)) :
  exists members',
    relink_tree docnames (JObj members) = JObj members' /\
    forall k, k <> "children" ->
              (k <> "url" \/ Utils.has_type "link" (JObj members) = false) ->
              dict_lookup k members' = dict_lookup k members.
Proof.
  rewrite relink_tree_obj. destruct (Utils.has_type "link" (JObj members)) eqn:Hty.
  - destruct (relink_fields docnames
                (Utils.update_children (relink_tree docnames) members))
      as (members' & -> & Hsame & _).
    exists members'. split; [done|]. intros k Hk [Hurl|?]; [|done].
    rewrite Hsame by done. by apply dict_lookup_update_children_ne.
  - eexists. split; [done|]. intros k Hk _. by apply dict_lookup_update_children_ne.
Qed.

Lemma relink_tree_not_object (docnames : gset string) (t : json) :
  (forall members, t <> JObj members) -> relink_tree docnames t = t.
Proof. intros Hno. destruct t; try done. by destruct (Hno members). Qed.

Lemma relink_tree_getitem (docnames : gset string) (n : json) (k : string) :
  k <> "children" ->
  (k <> "url" \/ Utils.has_type "link" n = false) ->
  getitem (relink_tree docnames n) k = getitem n k.
Proof.
  intros Hk Hurl. destruct n as [| | | | | |members]; try done.
  destruct (relink_tree_members docnames members) as (members' & -> & Hsame).
  simpl. by rewrite Hsame.
Qed.

(** X5. [transform_internal_links] keeps the shape of the tree: the walk
    of the result visits as many nodes, in the same order; each node has
    as many children as before and every field other than [children] is
    as before, except [url] on a node of type [link]. *)
Theorem X5_transform_internal_links_shape (self : Builder) (node node' : json) :
  MySTBuilderMixin.transform_internal_links self node = Ok node' ->
  Forall2
    (fun n n' =>
       length (Utils.children_of n') = length (Utils.children_of n) /\
       forall k, k <> "children" ->
                 (k <> "url" \/ Utils.has_type "link" n = false) ->
                 getitem n' k = getitem n k)
    (Utils.breadth_first_walk node) (Utils.breadth_first_walk node').
Proof.
  intros Hrun. apply transform_internal_links_Ok in Hrun as [-> _].
  rewrite (breadth_first_walk_map (relink_tree (found_docs (env self))))
    by apply children_of_relink_tree.
  apply Forall2_fmap_r, Forall2_same_length_lookup. split; [done|].
  intros i n n' Hi Hi'. rewrite Hi in Hi'. inversion Hi'; subst n'. split.
  - by rewrite children_of_relink_tree, length_map.
  - intros k Hk Hurl. by apply relink_tree_getitem.
Qed.

(** X7. The URL given to a rewritten link whose path does not start with
    a slash parses back to a URL without scheme and network location,
    with the old path followed by [".myst.json"] and the old parameters,
    query and fragment. *)
Theorem X7_rewritten_url_parses (docnames : gset string) (link : json) (url : string)
    (p : Url.ParseResult) :
  getitem link "url" = Ok (JStr url) ->
  Url.urlparse_str url = Ok p ->
  eligible docnames p = true ->
  String.prefix "/" (Url.path p) = false ->
  exists link' url',
    MySTBuilderMixin.rewrite_link docnames link = Ok link' /\
    getitem link' "url" = Ok (JStr url') /\
    Url.urlparse_str url' =
    Ok {| Url.scheme := ""; Url.netloc := "";
          Url.path := Url.path p ++ ".myst.json";
          Url.params := Url.params p;
          Url.query := Url.query p;
          Url.fragment := Url.fragment p |}.
Proof.
  intros Hurl Hp He Hslash.
  destruct link as [| | | | | |members]; try discriminate.
  simpl in Hurl. destruct (dict_lookup "url" members) as [v|] eqn:Hv; [|discriminate].
  inversion Hurl; subst v. clear Hurl.
  exists (JObj (dict_store "url" (JStr (rewritten_url p)) members)), (rewritten_url p).
  split; [|split].
  - rewrite rewrite_link_unfold, Hv. simpl Url.urlparse. by rewrite Hp, He.
  - simpl. by rewrite dict_lookup_store_eq.
  - apply eligible_true in He as (Hscheme & Hpath & _).
    destruct (Url.path p) as [|c0 rest] eqn:Hpath'; [done|].
    rewrite <- Hpath'. apply (urlparse_str_rewritten url p c0 rest); try done.
    intros ->. simpl in Hslash. by destruct rest.
Qed.

End LinksMore.

Lemma X4_witness :
  (exists link,
      link ∈ Utils.find_by_type "link" Sample.paragraph_with_bare_link /\
      ((getitem link "url" = Raise (KeyError "url") /\ KeyError "url" = KeyError "url") \/
       (exists url, getitem link "url" = Ok url /\ (forall s, url <> JStr s) /\
                    truthy url = true /\ KeyError "url" = AttributeError) \/
       (exists s, getitem link "url" = Ok (JStr s) /\
                  Url.urlsplit (H := Sample.externals) s = Raise ValueError /\
                  KeyError "url" = ValueError))) /\
  (forall doc_name fs,
      MySTBuilder.write_doc (H := Sample.externals) Sample.builder doc_name
        Sample.paragraph_with_bare_link fs = Raise (KeyError "url") /\
      MySTXRefBuilder.write_doc (H := Sample.externals) Sample.builder doc_name
        Sample.paragraph_with_bare_link fs = Raise (KeyError "url")).
Proof.
  apply (X4_transform_internal_links_raises (H := Sample.externals) Sample.builder
           Sample.paragraph_with_bare_link (KeyError "url")).
  - vm_compute. repeat constructor.
  - vm_compute. reflexivity.
Defined.

Lemma X5_witness :
  Forall2
    (fun n n' =>
       length (Utils.children_of n') = length (Utils.children_of n) /\
       forall k, k <> "children" ->
                 (k <> "url" \/ Utils.has_type "link" n = false) ->
                 getitem n' k = getitem n k)
    (Utils.breadth_first_walk Sample.intro_mdast)
    (Utils.breadth_first_walk Sample.intro_written).
Proof.
  apply (X5_transform_internal_links_shape (H := Sample.externals) Sample.builder
           Sample.intro_mdast Sample.intro_written).
  vm_compute. reflexivity.
Defined.

Lemma X7_witness :
  exists link' url',
    MySTBuilderMixin.rewrite_link (H := Sample.externals)
      (found_docs (env Sample.builder)) (Sample.link "guide;v=2?page=3#top") = Ok link' /\
    getitem link' "url" = Ok (JStr url') /\
    Url.urlparse_str (H := Sample.externals) url' =
    Ok {| Url.scheme := ""; Url.netloc := "";
          Url.path := "guide" ++ ".myst.json";
          Url.params := "v=2";
          Url.query := "page=3";
          Url.fragment := "top" |}.
Proof.
  apply (X7_rewritten_url_parses (H := Sample.externals)
           (found_docs (env Sample.builder)) (Sample.link "guide;v=2?page=3#top")
           "guide;v=2?page=3#top"
           (Url.mkParseResult "" "" "guide" "v=2" "page=3" "top")).
  - reflexivity.
  - vm_compute. reflexivity.
  - vm_compute. reflexivity.
  - reflexivity.
Defined.

(** ** Emission and the finishing pass together *)

Section Composition.
Context `{Externals}.

Lemma for_each_ext {A B : Type} (f g : A -> result B) (l : list A) :
  (forall x, x ∈ l -> f x = g x) -> for_each f l = for_each g l.
Proof.
  induction l as [|x l IH]; intros Hext; simpl; [done|].
  rewrite (Hext x) by by left. rewrite IH; [done|].
  intros y Hy. apply Hext. by right.
Qed.

Lemma map_filter_map {A B : Type} (r : A -> A) (sel : A -> bool) (g : A -> B) (l : list A) :
  (forall x, sel (r x) = sel x) -> (forall x, g (r x) = g x) ->
  map g (filter (fun x => sel x = true) (map r l)) =
  map g (filter (fun x => sel x = true) l).
Proof.
  intros Hsel Hg. induction l as [|x l IH]; simpl; [done|].
  rewrite !filter_cons, Hsel.
  destruct (decide (sel x = true)); simpl; by rewrite ?Hg, IH.
Qed.

Lemma has_identifier_relink_tree (docnames : gset string) (n : json) :
  has_identifier (relink_tree docnames n) = has_identifier n.
Proof.
  destruct n as [| | | | | |members]; try done.
  destruct (relink_tree_members docnames members) as (members' & -> & Hsame).
  simpl. by rewrite Hsame by (done || by left).
Qed.

Lemma ast_node_relink_tree (docnames : gset string) (n : json) :
  ast_node (relink_tree docnames n) = ast_node n.
Proof.
  destruct n as [| | | | | |members]; try done.
  destruct (relink_tree_members docnames members) as (members' & -> & Hsame).
  simpl. by rewrite !Hsame by (done || by left).
Qed.

Lemma node_reference_relink_tree (docnames : gset string) (self : Builder) (doc : string)
    (n : json) :
  node_reference self doc (relink_tree docnames n) = node_reference self doc n.
Proof.
  destruct n as [| | | | | |members]; try done.
  destruct (relink_tree_members docnames members) as (members' & -> & Hsame).
  unfold node_reference, xref_kind. by rewrite !Hsame by (done || by left).
Qed.

Lemma xref_write_doc_Ok (self : Builder) (doc_name : string) (doc_tree : json)
    (fs fs' : Files) :
  MySTXRefBuilder.write_doc self doc_name doc_tree fs = Ok fs' ->
  exists contents,
    read_bytes fs (MySTXRefBuilder._get_source_path self doc_name) = Ok contents /\
    MySTBuilderMixin.transform_internal_links self doc_tree =
      Ok (relink_tree (found_docs (env self)) doc_tree) /\
    fs' = <[MySTXRefBuilder._get_target_path self doc_name :=
              JsonFile (MySTXRefBuilder.artifact (sha256_hexdigest contents)
                          (MySTXRefBuilder._slugify doc_name) doc_name
                          (MySTXRefBuilder.lift_title
                             (relink_tree (found_docs (env self)) doc_tree))
                          (relink_tree (found_docs (env self)) doc_tree))]> fs.
Proof.
  unfold MySTXRefBuilder.write_doc.
  destruct (MySTBuilderMixin.transform_internal_links self doc_tree) as [mdast|e] eqn:Hrun;
    simpl; [|discriminate].
  apply transform_internal_links_Ok in Hrun as [-> _].
  destruct (read_bytes fs _) as [contents|e]; simpl; [|discriminate].
  intros Heq. inversion Heq. eauto.
Qed.

(** X6. What the finishing pass reads back is what [write_doc] was given:
    after the cross-reference builder has written a document whose tree
    is made of AST nodes, [_get_written_target_references] returns one
    entry per identifier-bearing node of the tree handed to [write_doc],
    in the order of the walk. The link rewrite changes none of them. *)
Theorem X6_written_references (self : Builder) (doc : string) (doc_tree : json)
    (fs fs' : Files) :
  Forall (fun n => ast_node n = true) (Utils.breadth_first_walk doc_tree) ->
  MySTXRefBuilder.write_doc self doc doc_tree fs = Ok fs' ->
  MySTXRefBuilder._get_written_target_references self fs' doc =
  Ok (map (node_reference self doc)
          (filter (fun n => has_identifier n = true) (Utils.breadth_first_walk doc_tree))).
Proof.
  intros Hast Hwrite. apply xref_write_doc_Ok in Hwrite as (contents & _ & _ & ->).
  set (docnames := found_docs (env self)).
  assert (written_mdast self
            (<[MySTXRefBuilder._get_target_path self doc :=
                 JsonFile (MySTXRefBuilder.artifact (sha256_hexdigest contents)
                             (MySTXRefBuilder._slugify doc) doc
                             (MySTXRefBuilder.lift_title (relink_tree docnames doc_tree))
                             (relink_tree docnames doc_tree))]> fs) doc =
          Some (relink_tree docnames doc_tree)) as Hread.
  { unfold written_mdast. by rewrite lookup_insert_eq. }
  rewrite (get_written_target_references_ast _ _ _ _ Hread).
  - unfold node_references. rewrite Hread.
    rewrite (breadth_first_walk_map (relink_tree docnames))
      by apply children_of_relink_tree.
    f_equal. apply map_filter_map.
    + apply has_identifier_relink_tree.
    + apply node_reference_relink_tree.
  - rewrite (breadth_first_walk_map (relink_tree docnames))
      by apply children_of_relink_tree.
    apply Forall_fmap. eapply Forall_impl; [exact Hast|].
    intros n Hn. simpl. by rewrite ast_node_relink_tree.
Qed.

(** X12. Whether the artifact says that the content includes the title
    is decided by the tree handed to [write_doc]: the flag is true exactly
    when that tree has a node of type [heading]. *)
Theorem X12_content_includes_title (self : Builder) (doc : string) (doc_tree : json)
    (fs fs' : Files) :
  MySTXRefBuilder.write_doc self doc doc_tree fs = Ok fs' ->
  exists art frontmatter,
    fs' !! MySTXRefBuilder._get_target_path self doc = Some (JsonFile art) /\
    getitem art "frontmatter" = Ok frontmatter /\
    getitem frontmatter "content_includes_title" =
    Ok (JBool (bool_decide (Utils.find_by_type "heading" doc_tree <> []))).
Proof.
  intros Hwrite. apply xref_write_doc_Ok in Hwrite as (contents & _ & _ & ->).
  eexists _, _. split; [by rewrite lookup_insert_eq|]. split; [reflexivity|].
  unfold MySTXRefBuilder.lift_title. rewrite find_by_type_relink_tree.
  by destruct (Utils.find_by_type "heading" doc_tree) as [|h hs].
Qed.

(** X11. The cross-reference builder needs the source file and the plain
    builder does not: when the link rewrite succeeds and the source cannot
    be opened, the first raises [OSError] and the second writes its
    artifact. *)
Theorem X11_write_doc_missing_source (self : Builder) (doc : string)
    (doc_tree mdast : json) (fs : Files) :
  MySTBuilderMixin.transform_internal_links self doc_tree = Ok mdast ->
  fs !! doc2path (env self) doc = None ->
  MySTXRefBuilder.write_doc self doc doc_tree fs = Raise OSError /\
  MySTBuilder.write_doc self doc doc_tree fs =
  Ok (<[MySTBuilder._get_output_path self doc :=
          JsonFile (JObj [("kind", JStr "Article"); ("mdast", mdast)])]> fs).
Proof.
  intros Hrun Hgone. unfold MySTXRefBuilder.write_doc, MySTBuilder.write_doc.
  rewrite Hrun. simpl. unfold read_bytes, MySTXRefBuilder._get_source_path.
  by rewrite Hgone.
Qed.

End Composition.

Lemma X6_witness :
  MySTXRefBuilder._get_written_target_references (H := Sample.externals)
    Sample.builder Sample.intro_only "intro" =
  Ok (map (node_reference (H := Sample.externals) Sample.builder "intro")
          (filter (fun n => has_identifier n = true)
                  (Utils.breadth_first_walk Sample.intro_mdast))).
Proof.
  apply (X6_written_references (H := Sample.externals) Sample.builder "intro"
           Sample.intro_mdast Sample.sources Sample.intro_only).
  - vm_compute. repeat constructor.
  - vm_compute. reflexivity.
Defined.

Lemma X12_witness :
  exists art frontmatter,
    Sample.intro_only !! MySTXRefBuilder._get_target_path (H := Sample.externals)
                           Sample.builder "intro" = Some (JsonFile art) /\
    getitem art "frontmatter" = Ok frontmatter /\
    getitem frontmatter "content_includes_title" =
    Ok (JBool (bool_decide (Utils.find_by_type "heading" Sample.intro_mdast <> []))).
Proof.
  apply (X12_content_includes_title (H := Sample.externals) Sample.builder "intro"
           Sample.intro_mdast Sample.sources Sample.intro_only).
  vm_compute. reflexivity.
Defined.

Lemma X11_witness :
  MySTXRefBuilder.write_doc (H := Sample.externals) Sample.builder "gone"
    Sample.guide_mdast Sample.sources = Raise OSError /\
  MySTBuilder.write_doc (H := Sample.externals) Sample.builder "gone"
    Sample.guide_mdast Sample.sources =
  Ok (<[MySTBuilder._get_output_path (H := Sample.externals) Sample.builder "gone" :=
          JsonFile (JObj [("kind", JStr "Article"); ("mdast", Sample.guide_mdast)])]>
        Sample.sources).
Proof.
  apply (X11_write_doc_missing_source (H := Sample.externals) Sample.builder "gone"
           Sample.guide_mdast Sample.guide_mdast Sample.sources).
  - vm_compute. reflexivity.
  - vm_compute. reflexivity.
Defined.

(** ** The finishing pass: failures, repetition, colliding ids *)

Section FinishMore.
Context `{Externals}.

(** X8. Every failure of the finishing pass on a document comes from the
    artifact of that document: the file is missing ([OSError]), it is no
    JSON document ([ValueError]), it has no [mdast] member, or the loop
    over its nodes raises on one of them. Any such failure makes [finish]
    raise, so that no manifest is written. *)
Theorem X8_finish_raises (self : Builder) (fs : Files) (d : string) (e : exn) :
  d ∈ found_docs (env self) ->
  MySTXRefBuilder._get_written_target_references self fs d = Raise e ->
  (exists e', MySTXRefBuilder.finish self fs = Raise e') /\
  ((fs !! MySTXRefBuilder._get_target_path self d = None /\ e = OSError) \/
   (exists contents,
       fs !! MySTXRefBuilder._get_target_path self d = Some (RawFile contents) /\
       e = ValueError) \/
   (exists data,
       fs !! MySTXRefBuilder._get_target_path self d = Some (JsonFile data) /\
       (getitem data "mdast" = Raise e \/
        exists mdast node,
          getitem data "mdast" = Ok mdast /\
          node ∈ Utils.breadth_first_walk mdast /\
          MySTXRefBuilder.reference_step (MySTXRefBuilder._get_target_path self d)
            (MySTXRefBuilder._slugify d) node = Raise e))).
Proof.
  intros Hd Hraise. split.
  - unfold MySTXRefBuilder.finish.
    destruct (for_each _ _) as [refs|e'] eqn:Hloop; simpl; [|eauto].
    apply for_each_Ok in Hloop. apply elem_of_elements in Hd.
    apply list_elem_of_lookup in Hd as (i & Hi).
    destruct (Forall2_lookup_l _ _ _ _ _ Hloop Hi) as (ys & _ & Hys). congruence.
  - unfold MySTXRefBuilder._get_written_target_references, json_load in Hraise.
    destruct (fs !! _) as [[contents|data]|] eqn:Hfile; simpl in Hraise.
    + inversion Hraise. right. left. eauto.
    + right. right. exists data. split; [done|].
      destruct (getitem data "mdast") as [mdast|e'] eqn:Hmdast; simpl in Hraise;
        [|inversion Hraise; by left].
      right. destruct (for_each _ _) as [yielded|e'] eqn:Hloop; simpl in Hraise;
        [discriminate|].
      inversion Hraise; subst e'. apply for_each_Raise in Hloop as (node & Hin & Hstep).
      eauto.
    + inversion Hraise. by left.
Qed.

(** X15. On a node that is an object, the loop of
    [_get_written_target_references] raises only [KeyError('type')], and
    does so exactly when the node carries an [identifier] and no [type]:
    a node without identifier is passed over whatever else it lacks. *)
Theorem X15_reference_step_raises (path slug : string) (members : list (string * json))
    (e : exn) :
  MySTXRefBuilder.reference_step path slug (JObj members) = Raise e <->
  e = KeyError "type" /\
  is_Some (dict_lookup "identifier" members) /\
  dict_lookup "type" members = None.
Proof.
  unfold MySTXRefBuilder.reference_step, MySTXRefBuilder._xref_kind_for_node. simpl.
  destruct (dict_lookup "identifier" members) as [identifier|] eqn:Hid; simpl.
  - destruct (dict_lookup "type" members) as [type_|] eqn:Hty; simpl.
    + split; [|by intros (_ & _ & ?)].
      destruct (eq_str type_ "container"); simpl;
        destruct (dict_lookup "kind" members); simpl; try discriminate;
        rewrite ?Hty; simpl; discriminate.
    + split.
      * intros Heq. inversion Heq. eauto.
      * by intros (-> & _ & _).
  - split; [discriminate|]. intros (_ & [? ?] & _). discriminate.
Qed.

Lemma get_written_target_references_insert (self : Builder) (fs : Files)
    (path : string) (f : file) (d : string) :
  MySTXRefBuilder._get_target_path self d <> path ->
  MySTXRefBuilder._get_written_target_references self (<[path := f]> fs) d =
  MySTXRefBuilder._get_written_target_references self fs d.
Proof.
  intros Hne. unfold MySTXRefBuilder._get_written_target_references, json_load.
  by rewrite lookup_insert_ne.
Qed.

(** X9. The finishing pass reads the artifacts and writes the manifest,
    nothing else: every other file is left as it was, and when no
    artifact lies at the path of the manifest, running [finish] again on
    its own result succeeds and changes nothing. *)
Theorem X9_finish_again (self : Builder) (fs fs' : Files) :
  (forall d, d ∈ found_docs (env self) ->
             MySTXRefBuilder._get_target_path self d <> MySTXRefBuilder.manifest_path self) ->
  MySTXRefBuilder.finish self fs = Ok fs' ->
  MySTXRefBuilder.finish self fs' = Ok fs' /\
  (forall p, p <> MySTXRefBuilder.manifest_path self -> fs' !! p = fs !! p).
Proof.
  intros Hpaths Hfinish. unfold MySTXRefBuilder.finish in Hfinish.
  destruct (for_each _ _) as [refs|e] eqn:Hloop; simpl in Hfinish; [|discriminate].
  inversion Hfinish; subst fs'. clear Hfinish. split.
  - unfold MySTXRefBuilder.finish.
    rewrite (for_each_ext _ (MySTXRefBuilder._get_written_target_references self fs)).
    + rewrite Hloop. simpl. unfold json_dump. by rewrite insert_insert_eq.
    + intros d Hd. apply get_written_target_references_insert.
      apply Hpaths. by apply elem_of_elements.
  - intros p Hp. unfold json_dump. by rewrite lookup_insert_ne.
Qed.

(** X14. Two known documents with the same basename have the same slug
    and the same artifact path, and the [references] member of the
    manifest [finish] writes holds their page entry at two different
    positions: the list repeats itself. *)
Theorem X14_colliding_ids_repeat (self : Builder) (fs fs' : Files) (d1 d2 : string) :
  d1 ∈ found_docs (env self) ->
  d2 ∈ found_docs (env self) ->
  d1 <> d2 ->
  OsPath.basename d1 = OsPath.basename d2 ->
  MySTXRefBuilder.finish self fs = Ok fs' ->
  MySTXRefBuilder._slugify d1 = MySTXRefBuilder._slugify d2 /\
  MySTXRefBuilder._get_target_path self d1 = MySTXRefBuilder._get_target_path self d2 /\
  exists (manifest : json) (references : list json) (i j : nat),
    fs' !! MySTXRefBuilder.manifest_path self = Some (JsonFile manifest) /\
    getitem manifest "references" = Ok (JArr references) /\
    i <> j /\
    references !! i =
      Some (JObj [("kind", JStr "page");
                  ("url", JStr ("/" ++ MySTXRefBuilder._slugify d1));
                  ("data", JStr (MySTXRefBuilder._get_target_path self d1))]) /\
    references !! j =
      Some (JObj [("kind", JStr "page");
                  ("url", JStr ("/" ++ MySTXRefBuilder._slugify d1));
                  ("data", JStr (MySTXRefBuilder._get_target_path self d1))]) /\
    ~ NoDup references.
Proof.
  intros Hd1 Hd2 Hne Hbase Hfinish.
  assert (MySTXRefBuilder._slugify d1 = MySTXRefBuilder._slugify d2) as Hslug
    by (unfold MySTXRefBuilder._slugify; by rewrite Hbase).
  assert (MySTXRefBuilder._get_target_path self d1 =
          MySTXRefBuilder._get_target_path self d2) as Hpath
    by (unfold MySTXRefBuilder._get_target_path; by rewrite Hslug).
  split; [done|]. split; [done|].
  unfold MySTXRefBuilder.finish in Hfinish.
  destruct (for_each _ _) as [refs|e] eqn:Hloop; simpl in Hfinish; [|discriminate].
  inversion Hfinish; subst fs'. clear Hfinish.
  apply elem_of_elements, list_elem_of_lookup in Hd1 as (i & Hi).
  apply elem_of_elements, list_elem_of_lookup in Hd2 as (j & Hj).
  assert (i <> j) as Hij by (intros ->; congruence).
  set (pages := map (MySTXRefBuilder.page_reference self)
                    (elements (found_docs (env self)))).
  assert (pages !! i = Some (MySTXRefBuilder.page_reference self d1)) as Hpi
    by (unfold pages; by rewrite list_lookup_fmap, Hi).
  assert (pages !! j = Some (MySTXRefBuilder.page_reference self d1)) as Hpj.
  { unfold pages. rewrite list_lookup_fmap, Hj. simpl.
    unfold MySTXRefBuilder.page_reference. by rewrite <- Hslug, <- Hpath. }
  exists (MySTXRefBuilder.xref (pages ++ concat refs)), (pages ++ concat refs)%list, i, j.
  split; [unfold json_dump; by rewrite lookup_insert_eq|].
  split; [reflexivity|]. split; [done|].
  split; [by apply lookup_app_l_Some|]. split; [by apply lookup_app_l_Some|].
  intros Hnd. apply Hij. eapply (NoDup_lookup _ i j _ Hnd); by apply lookup_app_l_Some.
Qed.

End FinishMore.

Lemma X8_witness :
  (exists e', MySTXRefBuilder.finish (H := Sample.externals) Sample.builder Sample.sources
              = Raise e') /\
  ((Sample.sources !! MySTXRefBuilder._get_target_path (H := Sample.externals)
                        Sample.builder "intro" = None /\ OSError = OSError) \/
   (exists contents,
       Sample.sources !! MySTXRefBuilder._get_target_path (H := Sample.externals)
                           Sample.builder "intro" = Some (RawFile contents) /\
       OSError = ValueError) \/
   (exists data,
       Sample.sources !! MySTXRefBuilder._get_target_path (H := Sample.externals)
                           Sample.builder "intro" = Some (JsonFile data) /\
       (getitem data "mdast" = Raise OSError \/
        exists mdast node,
          getitem data "mdast" = Ok mdast /\
          node ∈ Utils.breadth_first_walk mdast /\
          MySTXRefBuilder.reference_step (H := Sample.externals)
            (MySTXRefBuilder._get_target_path (H := Sample.externals) Sample.builder "intro")
            (MySTXRefBuilder._slugify (H := Sample.externals) "intro") node
          = Raise OSError))).
Proof.
  apply (X8_finish_raises (H := Sample.externals) Sample.builder Sample.sources
           "intro" OSError).
  - simpl. set_solver.
  - vm_compute. reflexivity.
Defined.

Lemma sample_manifest_apart (d : string) :
  d ∈ found_docs (env Sample.builder) ->
  MySTXRefBuilder._get_target_path (H := Sample.externals) Sample.builder d <>
  MySTXRefBuilder.manifest_path Sample.builder.
Proof.
  intros Hd. simpl in Hd.
  apply elem_of_union in Hd as [Hd|Hd]; [apply elem_of_union in Hd as [Hd|Hd]|];
    apply elem_of_singleton in Hd as ->; vm_compute; discriminate.
Defined.

Lemma X9_witness :
  MySTXRefBuilder.finish (H := Sample.externals) Sample.builder Sample.finished =
    Ok Sample.finished /\
  (forall p, p <> MySTXRefBuilder.manifest_path Sample.builder ->
             Sample.finished !! p = Sample.written !! p).
Proof.
  apply (X9_finish_again (H := Sample.externals) Sample.builder
           Sample.written Sample.finished).
  - exact sample_manifest_apart.
  - vm_compute. reflexivity.
Defined.

Lemma X14_witness :
  MySTXRefBuilder._slugify (H := Sample.externals) "a/index" =
    MySTXRefBuilder._slugify (H := Sample.externals) "b/index" /\
  MySTXRefBuilder._get_target_path (H := Sample.externals) Sample.colliding_builder "a/index" =
    MySTXRefBuilder._get_target_path (H := Sample.externals) Sample.colliding_builder
      "b/index" /\
  exists (manifest : json) (references : list json) (i j : nat),
    Sample.colliding_finished !! MySTXRefBuilder.manifest_path Sample.colliding_builder =
      Some (JsonFile manifest) /\
    getitem manifest "references" = Ok (JArr references) /\
    i <> j /\
    references !! i =
      Some (JObj [("kind", JStr "page");
                  ("url", JStr ("/" ++ MySTXRefBuilder._slugify (H := Sample.externals)
                                         "a/index"));
                  ("data", JStr (MySTXRefBuilder._get_target_path (H := Sample.externals)
                                   Sample.colliding_builder "a/index"))]) /\
    references !! j =
      Some (JObj [("kind", JStr "page");
                  ("url", JStr ("/" ++ MySTXRefBuilder._slugify (H := Sample.externals)
                                         "a/index"));
                  ("data", JStr (MySTXRefBuilder._get_target_path (H := Sample.externals)
                                   Sample.colliding_builder "a/index"))]) /\
    ~ NoDup references.
Proof.
  apply (X14_colliding_ids_repeat (H := Sample.externals) Sample.colliding_builder
           Sample.colliding_files Sample.colliding_finished "a/index" "b/index").
  - simpl. set_solver.
  - simpl. set_solver.
  - discriminate.
  - reflexivity.
  - vm_compute. reflexivity.
Defined.

(** ** Writing several documents; slugs of nested documents *)

Section WritingMore.
Context `{Externals}.

Lemma xref_write_doc_run (self : Builder) (doc_name : string) (doc_tree mdast : json)
    (contents : list Byte.byte) (fs : Files) :
  MySTBuilderMixin.transform_internal_links self doc_tree = Ok mdast ->
  read_bytes fs (MySTXRefBuilder._get_source_path self doc_name) = Ok contents ->
  MySTXRefBuilder.write_doc self doc_name doc_tree fs =
  Ok (<[MySTXRefBuilder._get_target_path self doc_name :=
          JsonFile (MySTXRefBuilder.artifact (sha256_hexdigest contents)
                      (MySTXRefBuilder._slugify doc_name) doc_name
                      (MySTXRefBuilder.lift_title mdast) mdast)]> fs).
Proof.
  intros Hrun Hread. unfold MySTXRefBuilder.write_doc.
  rewrite Hrun. simpl. rewrite Hread. reflexivity.
Qed.

Lemma read_bytes_insert (fs : Files) (path other : string) (f : file) :
  other <> path -> read_bytes (<[other := f]> fs) path = read_bytes fs path.
Proof. intros Hne. unfold read_bytes. by rewrite lookup_insert_ne. Qed.

(** X10. The cross-reference builder writes documents independently of
    their order: when two documents have different artifact paths and
    neither artifact overwrites the source of the other document, writing
    them in the other order succeeds as well and leaves the same files. *)
Theorem X10_write_doc_commutes (self : Builder) (d1 d2 : string) (t1 t2 : json)
    (fs fs1 fs12 : Files) :
  MySTXRefBuilder._get_target_path self d1 <> MySTXRefBuilder._get_target_path self d2 ->
  MySTXRefBuilder._get_target_path self d1 <> MySTXRefBuilder._get_source_path self d2 ->
  MySTXRefBuilder._get_target_path self d2 <> MySTXRefBuilder._get_source_path self d1 ->
  MySTXRefBuilder.write_doc self d1 t1 fs = Ok fs1 ->
  MySTXRefBuilder.write_doc self d2 t2 fs1 = Ok fs12 ->
  exists fs2,
    MySTXRefBuilder.write_doc self d2 t2 fs = Ok fs2 /\
    MySTXRefBuilder.write_doc self d1 t1 fs2 = Ok fs12.
Proof.
  intros Htargets Hsource2 Hsource1 Hfirst Hsecond.
  apply xref_write_doc_Ok in Hfirst as (c1 & Hread1 & Hrun1 & ->).
  apply xref_write_doc_Ok in Hsecond as (c2 & Hread2 & Hrun2 & ->).
  rewrite read_bytes_insert in Hread2 by done.
  eexists. split.
  - by apply xref_write_doc_run.
  - rewrite (xref_write_doc_run self d1 t1 _ c1 _ Hrun1).
    + by rewrite insert_insert_ne.
    + by rewrite read_bytes_insert.
Qed.

(** X13. The slug of a document is computed from what follows its last
    slash: a document in a directory gets the slug of its bare name, in
    both builders, so that the directory never reaches the output path; a
    name ending in a slash is slugged as the empty name. *)
Theorem X13_slugify_drops_directory (dir name : string) :
  Str.find "/" name = None ->
  MySTBuilder._slugify (dir ++ String "/" name) = title_to_name name /\
  MySTXRefBuilder._slugify (dir ++ String "/" name) = title_to_name name /\
  MySTBuilder._slugify name = title_to_name name /\
  MySTXRefBuilder._slugify name = title_to_name name /\
  MySTBuilder._slugify (dir ++ "/") = title_to_name "" /\
  (forall self : Builder,
     MySTBuilder._get_output_path self (dir ++ String "/" name) =
       MySTBuilder._get_output_path self name /\
     MySTXRefBuilder._get_target_path self (dir ++ String "/" name) =
       MySTXRefBuilder._get_target_path self name).
Proof.
  intros Hname.
  unfold MySTBuilder._get_output_path, MySTXRefBuilder._get_target_path,
    MySTBuilder._slugify, MySTXRefBuilder._slugify.
  rewrite (basename_slash dir name Hname), (basename_no_slash name Hname).
  replace (dir ++ "/") with (dir ++ String "/" "") by reflexivity.
  rewrite (basename_slash dir "" eq_refl). repeat split; reflexivity.
Qed.

End WritingMore.

Lemma X10_witness :
  exists fs2,
    MySTXRefBuilder.write_doc (H := Sample.externals) Sample.builder "guide"
      Sample.guide_mdast Sample.sources = Ok fs2 /\
    MySTXRefBuilder.write_doc (H := Sample.externals) Sample.builder "intro"
      Sample.intro_mdast fs2 = Ok Sample.written.
Proof.
  apply (X10_write_doc_commutes (H := Sample.externals) Sample.builder "intro" "guide"
           Sample.intro_mdast Sample.guide_mdast Sample.sources Sample.intro_only
           Sample.written).
  - vm_compute. discriminate.
  - vm_compute. discriminate.
  - vm_compute. discriminate.
  - vm_compute. reflexivity.
  - vm_compute. reflexivity.
Defined.

Lemma X13_witness :
  MySTBuilder._slugify (H := Sample.externals) ("api/v2" ++ String "/" "index") =
    title_to_name (Externals := Sample.externals) "index" /\
  MySTXRefBuilder._slugify (H := Sample.externals) ("api/v2" ++ String "/" "index") =
    title_to_name (Externals := Sample.externals) "index" /\
  MySTBuilder._slugify (H := Sample.externals) "index" =
    title_to_name (Externals := Sample.externals) "index" /\
  MySTXRefBuilder._slugify (H := Sample.externals) "index" =
    title_to_name (Externals := Sample.externals) "index" /\
  MySTBuilder._slugify (H := Sample.externals) ("api/v2" ++ "/") =
    title_to_name (Externals := Sample.externals) "" /\
  (forall self : Builder,
     MySTBuilder._get_output_path (H := Sample.externals) self
         ("api/v2" ++ String "/" "index") =
       MySTBuilder._get_output_path (H := Sample.externals) self "index" /\
     MySTXRefBuilder._get_target_path (H := Sample.externals) self
         ("api/v2" ++ String "/" "index") =
       MySTXRefBuilder._get_target_path (H := Sample.externals) self "index").
Proof.
  exact (X13_slugify_drops_directory (H := Sample.externals) "api/v2" "index" eq_refl).
Defined.
